(** * Subscription entitlements, usage accounting and vouchers

    A shallow embedding of the subscription core of the interview
    platform backend:

    - [src/models/subscription.py]: [SubscriptionPlan], [UserSubscription]
      ([is_active], [can_use_feature], [increment_usage]),
      [DiscountVoucher] ([is_valid], [calculate_discount]) and
      [VoucherUse];
    - [src/services/payment_service.py]: [create_subscription_plans],
      [create_subscription], [_create_free_subscription],
      [_apply_voucher], [cancel_subscription], [create_voucher],
      [validate_voucher], [get_user_subscription],
      [handle_stripe_webhook] and its three handlers;
    - [src/routes/subscription.py]: the [/subscribe], [/usage],
      [/check-feature] and [/increment-usage] handlers.

    Conventions.  Python [int] columns are [Z]; nullable columns are
    [option]; [String] columns are [string]; [Float] columns are
    binary64 floats; an ORM object mutated in place and committed is a
    record passed in and returned.  The clock ([datetime.utcnow()]) is a
    parameter [now]: one call is served at one instant, the [onupdate]
    of a commit included.  Calls to the payment provider are answered
    by an explicit record of provider replies. *)

From Stdlib Require Import ZArith List String Bool Lia PrimFloat SpecFloat
  FloatOps.
From Stdlib Require Uint63 Ascii.
Import ListNotations.

Open Scope string_scope.
Open Scope Z_scope.

(** ** Python truthiness of the optional values the code tests *)

Definition truthy_str (s : option string) : bool :=
  match s with
  | Some s => negb (String.eqb s "")
  | None => false
  end.

Definition truthy_int (n : option Z) : bool :=
  match n with
  | Some n => negb (n =? 0)
  | None => false
  end.

(** ** Naive datetimes

    A [datetime] without time zone is the tuple of its fields; Python
    orders two of them field by field, most significant first.
    [replace(day=n)] overwrites the day and keeps every other field, the
    time of day included. *)

Module DateTime.

Record datetime : Type := mk {
  year : Z;
  month : Z;
  day : Z;
  hour : Z;
  minute : Z;
  second : Z;
  microsecond : Z
}.

Definition lex (c c' : comparison) : comparison :=
  match c with
  | Eq => c'
  | _ => c
  end.

Definition compare (a b : datetime) : comparison :=
  lex (year a ?= year b)
 (lex (month a ?= month b)
 (lex (day a ?= day b)
 (lex (hour a ?= hour b)
 (lex (minute a ?= minute b)
 (lex (second a ?= second b)
      (microsecond a ?= microsecond b)))))).

(** [a < b] *)
Definition ltb (a b : datetime) : bool :=
  match compare a b with
  | Lt => true
  | _ => false
  end.

(** [a > b] *)
Definition gtb (a b : datetime) : bool :=
  match compare a b with
  | Gt => true
  | _ => false
  end.

(** [a <= b] *)
Definition leb (a b : datetime) : bool :=
  match compare a b with
  | Gt => false
  | _ => true
  end.

(** [d.replace(day=n)] *)
Definition replace_day (d : datetime) (n : Z) : datetime :=
  {| year := year d; month := month d; day := n;
     hour := hour d; minute := minute d; second := second d;
     microsecond := microsecond d |}.

(** Midnight opening the calendar month of [d]. *)
Definition month_start (d : datetime) : datetime :=
  {| year := year d; month := month d; day := 1;
     hour := 0; minute := 0; second := 0; microsecond := 0 |}.

Definition is_leap (y : Z) : bool :=
  (y mod 4 =? 0) && (negb (y mod 100 =? 0) || (y mod 400 =? 0)).

Definition days_in_month (y m : Z) : Z :=
  if m =? 2 then (if is_leap y then 29 else 28)
  else if (m =? 4) || (m =? 6) || (m =? 9) || (m =? 11) then 30
  else 31.

Definition tomorrow (d : datetime) : datetime :=
  if day d <? days_in_month (year d) (month d) then
    {| year := year d; month := month d; day := day d + 1;
       hour := hour d; minute := minute d; second := second d;
       microsecond := microsecond d |}
  else if month d <? 12 then
    {| year := year d; month := month d + 1; day := 1;
       hour := hour d; minute := minute d; second := second d;
       microsecond := microsecond d |}
  else
    {| year := year d + 1; month := 1; day := 1;
       hour := hour d; minute := minute d; second := second d;
       microsecond := microsecond d |}.

(** [d + timedelta(days=n)] for [n >= 0]: the same time of day, [n]
    calendar days later. *)
Definition plus_days (d : datetime) (n : Z) : datetime :=
  Nat.iter (Z.to_nat n) tomorrow d.

(** The time of day of a well-formed datetime has no negative field. *)
Definition time_of_day_ok (d : datetime) : Prop :=
  0 <= hour d /\ 0 <= minute d /\ 0 <= second d /\ 0 <= microsecond d.

(** The two datetimes lie in the same calendar month. *)
Definition same_month (a b : datetime) : Prop :=
  year a = year b /\ month a = month b.

End DateTime.

Import DateTime.

(** ** Plans and subscriptions *)

Record SubscriptionPlan : Type := {
  plan_key : string;                      (* column [id] *)
  max_interviews_per_month : Z;
  max_cvs : Z;
  max_business_cards : Z;
  ai_feedback : bool;
  advanced_analytics : bool;
  priority_support : bool;
  custom_branding : bool;
  price_monthly : float;
  stripe_price_id_monthly : option string;
  stripe_price_id_yearly : option string
}.

(** [plan] is the ORM relationship of the row: the plan the foreign key
    [plan_id] resolves to, or [None].  [created_at] is set when the row
    is inserted, [updated_at] then and by every UPDATE of the row. *)
Record UserSubscription : Type := {
  sub_id : Z;
  user_id : Z;
  plan_id : string;
  plan : option SubscriptionPlan;
  status : string;
  billing_cycle : string;
  start_date : option datetime;
  end_date : option datetime;
  next_billing_date : option datetime;
  cancelled_at : option datetime;
  stripe_subscription_id : option string;
  stripe_customer_id : option string;
  interviews_used_this_month : Z;
  cvs_created : Z;
  business_cards_created : Z;
  usage_reset_date : option datetime;
  created_at : option datetime;
  updated_at : option datetime
}.

Definition set_status (s : UserSubscription) (v : string) : UserSubscription :=
  {| sub_id := sub_id s; user_id := user_id s; plan_id := plan_id s;
     plan := plan s; status := v; billing_cycle := billing_cycle s;
     start_date := start_date s; end_date := end_date s;
     next_billing_date := next_billing_date s;
     cancelled_at := cancelled_at s;
     stripe_subscription_id := stripe_subscription_id s;
     stripe_customer_id := stripe_customer_id s;
     interviews_used_this_month := interviews_used_this_month s;
     cvs_created := cvs_created s;
     business_cards_created := business_cards_created s;
     usage_reset_date := usage_reset_date s;
     created_at := created_at s; updated_at := updated_at s |}.

Definition set_end_date (s : UserSubscription) (v : option datetime)
  : UserSubscription :=
  {| sub_id := sub_id s; user_id := user_id s; plan_id := plan_id s;
     plan := plan s; status := status s; billing_cycle := billing_cycle s;
     start_date := start_date s; end_date := v;
     next_billing_date := next_billing_date s;
     cancelled_at := cancelled_at s;
     stripe_subscription_id := stripe_subscription_id s;
     stripe_customer_id := stripe_customer_id s;
     interviews_used_this_month := interviews_used_this_month s;
     cvs_created := cvs_created s;
     business_cards_created := business_cards_created s;
     usage_reset_date := usage_reset_date s;
     created_at := created_at s; updated_at := updated_at s |}.

Definition set_cancelled_at (s : UserSubscription) (v : option datetime)
  : UserSubscription :=
  {| sub_id := sub_id s; user_id := user_id s; plan_id := plan_id s;
     plan := plan s; status := status s; billing_cycle := billing_cycle s;
     start_date := start_date s; end_date := end_date s;
     next_billing_date := next_billing_date s;
     cancelled_at := v;
     stripe_subscription_id := stripe_subscription_id s;
     stripe_customer_id := stripe_customer_id s;
     interviews_used_this_month := interviews_used_this_month s;
     cvs_created := cvs_created s;
     business_cards_created := business_cards_created s;
     usage_reset_date := usage_reset_date s;
     created_at := created_at s; updated_at := updated_at s |}.

Definition set_interviews_used_this_month (s : UserSubscription) (v : Z)
  : UserSubscription :=
  {| sub_id := sub_id s; user_id := user_id s; plan_id := plan_id s;
     plan := plan s; status := status s; billing_cycle := billing_cycle s;
     start_date := start_date s; end_date := end_date s;
     next_billing_date := next_billing_date s;
     cancelled_at := cancelled_at s;
     stripe_subscription_id := stripe_subscription_id s;
     stripe_customer_id := stripe_customer_id s;
     interviews_used_this_month := v;
     cvs_created := cvs_created s;
     business_cards_created := business_cards_created s;
     usage_reset_date := usage_reset_date s;
     created_at := created_at s; updated_at := updated_at s |}.

Definition set_cvs_created (s : UserSubscription) (v : Z) : UserSubscription :=
  {| sub_id := sub_id s; user_id := user_id s; plan_id := plan_id s;
     plan := plan s; status := status s; billing_cycle := billing_cycle s;
     start_date := start_date s; end_date := end_date s;
     next_billing_date := next_billing_date s;
     cancelled_at := cancelled_at s;
     stripe_subscription_id := stripe_subscription_id s;
     stripe_customer_id := stripe_customer_id s;
     interviews_used_this_month := interviews_used_this_month s;
     cvs_created := v;
     business_cards_created := business_cards_created s;
     usage_reset_date := usage_reset_date s;
     created_at := created_at s; updated_at := updated_at s |}.

Definition set_business_cards_created (s : UserSubscription) (v : Z)
  : UserSubscription :=
  {| sub_id := sub_id s; user_id := user_id s; plan_id := plan_id s;
     plan := plan s; status := status s; billing_cycle := billing_cycle s;
     start_date := start_date s; end_date := end_date s;
     next_billing_date := next_billing_date s;
     cancelled_at := cancelled_at s;
     stripe_subscription_id := stripe_subscription_id s;
     stripe_customer_id := stripe_customer_id s;
     interviews_used_this_month := interviews_used_this_month s;
     cvs_created := cvs_created s;
     business_cards_created := v;
     usage_reset_date := usage_reset_date s;
     created_at := created_at s; updated_at := updated_at s |}.

Definition set_usage_reset_date (s : UserSubscription) (v : option datetime)
  : UserSubscription :=
  {| sub_id := sub_id s; user_id := user_id s; plan_id := plan_id s;
     plan := plan s; status := status s; billing_cycle := billing_cycle s;
     start_date := start_date s; end_date := end_date s;
     next_billing_date := next_billing_date s;
     cancelled_at := cancelled_at s;
     stripe_subscription_id := stripe_subscription_id s;
     stripe_customer_id := stripe_customer_id s;
     interviews_used_this_month := interviews_used_this_month s;
     cvs_created := cvs_created s;
     business_cards_created := business_cards_created s;
     usage_reset_date := v;
     created_at := created_at s; updated_at := updated_at s |}.

Definition set_updated_at (s : UserSubscription) (v : option datetime)
  : UserSubscription :=
  {| sub_id := sub_id s; user_id := user_id s; plan_id := plan_id s;
     plan := plan s; status := status s; billing_cycle := billing_cycle s;
     start_date := start_date s; end_date := end_date s;
     next_billing_date := next_billing_date s;
     cancelled_at := cancelled_at s;
     stripe_subscription_id := stripe_subscription_id s;
     stripe_customer_id := stripe_customer_id s;
     interviews_used_this_month := interviews_used_this_month s;
     cvs_created := cvs_created s;
     business_cards_created := business_cards_created s;
     usage_reset_date := usage_reset_date s;
     created_at := created_at s; updated_at := v |}.

(** *** Writing a loaded row back

    [db.session.commit()] flushes a row that was loaded and assigned to
    with an UPDATE of the columns whose value differs from the one
    loaded, and with none when no column differs.  An UPDATE also sets
    [updated_at], declared [onupdate=datetime.utcnow].  [created_at] is
    written by the INSERT only. *)

Definition same_date (a b : option datetime) : bool :=
  match a, b with
  | Some a, Some b =>
      match compare a b with
      | Eq => true
      | _ => false
      end
  | None, None => true
  | _, _ => false
  end.

Definition same_text (a b : option string) : bool :=
  match a, b with
  | Some a, Some b => String.eqb a b
  | None, None => true
  | _, _ => false
  end.

(** No column the code assigns differs between the two states of a row. *)
Definition same_columns (a b : UserSubscription) : bool :=
  (user_id a =? user_id b)
  && String.eqb (plan_id a) (plan_id b)
  && String.eqb (status a) (status b)
  && String.eqb (billing_cycle a) (billing_cycle b)
  && same_date (start_date a) (start_date b)
  && same_date (end_date a) (end_date b)
  && same_date (next_billing_date a) (next_billing_date b)
  && same_date (cancelled_at a) (cancelled_at b)
  && same_text (stripe_subscription_id a) (stripe_subscription_id b)
  && same_text (stripe_customer_id a) (stripe_customer_id b)
  && (interviews_used_this_month a =? interviews_used_this_month b)
  && (cvs_created a =? cvs_created b)
  && (business_cards_created a =? business_cards_created b)
  && same_date (usage_reset_date a) (usage_reset_date b).

(** [loaded] is the row as the session read it, [row] the same object
    after the assignments. *)
Definition commit (loaded row : UserSubscription) (now : datetime)
  : UserSubscription :=
  if same_columns loaded row then row else set_updated_at row (Some now).

(** *** [UserSubscription.is_active] *)

Definition is_active (self : UserSubscription) (now : datetime) : bool :=
  String.eqb (status self) "active"
  && match end_date self with
     | None => true
     | Some e => gtb e now
     end.

(** *** [UserSubscription.can_use_feature]

    Returns the verdict and the row as the call leaves it: the monthly
    reset writes the row and commits before the feature is looked at. *)

Definition can_use_feature (self : UserSubscription) (feature_type : string)
    (now : datetime) : bool * UserSubscription :=
  if negb (is_active self now) then (false, self) else
  match plan self with
  | None => (false, self)
  | Some plan =>
    let self :=
      match usage_reset_date self with
      | Some d =>
        if ltb d (replace_day now 1)
        then commit self
               (set_usage_reset_date
                  (set_interviews_used_this_month self 0)
                  (Some (replace_day now 1)))
               now
        else self
      | None => self
      end in
    if String.eqb feature_type "interview" then
      if max_interviews_per_month plan =? 0 then (true, self)
      else (interviews_used_this_month self <? max_interviews_per_month plan, self)
    else if String.eqb feature_type "cv" then
      if max_cvs plan =? 0 then (true, self)
      else (cvs_created self <? max_cvs plan, self)
    else if String.eqb feature_type "business_card" then
      if max_business_cards plan =? 0 then (true, self)
      else (business_cards_created self <? max_business_cards plan, self)
    else if String.eqb feature_type "ai_feedback" then (ai_feedback plan, self)
    else if String.eqb feature_type "advanced_analytics" then
      (advanced_analytics plan, self)
    else if String.eqb feature_type "priority_support" then
      (priority_support plan, self)
    else if String.eqb feature_type "custom_branding" then
      (custom_branding plan, self)
    else (false, self)
  end.

(** *** [UserSubscription.increment_usage]

    The commit closes the method: it writes when a counter was
    incremented, and nothing for another feature kind. *)

Definition increment_usage (self : UserSubscription) (feature_type : string)
    (now : datetime) : UserSubscription :=
  let row :=
    if String.eqb feature_type "interview" then
      set_interviews_used_this_month self (interviews_used_this_month self + 1)
    else if String.eqb feature_type "cv" then
      set_cvs_created self (cvs_created self + 1)
    else if String.eqb feature_type "business_card" then
      set_business_cards_created self (business_cards_created self + 1)
    else self in
  commit self row now.

(** ** The [/check-feature] and [/increment-usage] handlers

    [subscription] is what [payment_service.get_user_subscription]
    returned for the caller; [feature_type] is the field of the request
    body.  The second component is the row as the request leaves it. *)

Inductive Response : Type :=
| JsonError (code : Z) (error : string)
| CanUse (can_use : bool) (feature_type : option string)
| UsageIncremented (feature_type : string) (new_usage : Z).

Definition check_feature_access (subscription : option UserSubscription)
    (feature_type : option string) (now : datetime)
  : Response * option UserSubscription :=
  match feature_type with
  | None => (JsonError 400 "feature_type is required", subscription)
  | Some ft =>
    if String.eqb ft "" then
      (JsonError 400 "feature_type is required", subscription)
    else
      match subscription with
      | None => (CanUse false None, None)
      | Some subscription =>
        let (can_use, subscription) := can_use_feature subscription ft now in
        (CanUse can_use (Some ft), Some subscription)
      end
  end.

(** [getattr(subscription, name, 0)] with [name] built from the feature
    type: only the three counters are attributes of that form. *)
Definition new_usage_of (subscription : UserSubscription)
    (feature_type : string) : Z :=
  if String.eqb feature_type "interview" then
    interviews_used_this_month subscription
  else if String.eqb feature_type "cv" then cvs_created subscription
  else if String.eqb feature_type "business_card" then
    business_cards_created subscription
  else 0.

Definition increment_usage_route (subscription : option UserSubscription)
    (feature_type : option string) (now : datetime)
  : Response * option UserSubscription :=
  match feature_type with
  | None => (JsonError 400 "feature_type is required", subscription)
  | Some ft =>
    if String.eqb ft "" then
      (JsonError 400 "feature_type is required", subscription)
    else
      match subscription with
      | None => (JsonError 404 "No active subscription found", None)
      | Some subscription =>
        let (can_use, subscription) := can_use_feature subscription ft now in
        if negb can_use then
          (JsonError 403
             "Feature usage limit reached or not available in current plan",
           Some subscription)
        else
          let subscription := increment_usage subscription ft now in
          (UsageIncremented ft (new_usage_of subscription ft),
           Some subscription)
      end
  end.

(** ** Vouchers

    [applicable_plans] is the decoded column: the JSON array of plan ids
    that [create_voucher] stored, [None] for a NULL (or empty) column.
    [active_flag] is the column [is_active].  The amounts are the
    binary64 floats of the [Float] columns. *)

Record DiscountVoucher : Type := {
  voucher_id : Z;
  code : string;
  discount_type : string;
  discount_value : float;
  currency : string;
  max_uses : Z;
  used_count : Z;
  single_use_per_user : bool;
  valid_from : option datetime;
  valid_until : option datetime;
  applicable_plans : option (list string);
  active_flag : bool
}.

Record VoucherUse : Type := {
  use_id : Z;
  use_voucher_id : Z;
  use_user_id : Z;
  use_subscription_id : option Z;
  original_amount : float;
  discount_amount : float;
  final_amount : float
}.

(** [plan_id in applicable_plans] *)
Definition str_in (x : string) (l : list string) : bool :=
  existsb (String.eqb x) l.

(** [VoucherUse.query.filter_by(voucher_id=.., user_id=..).first()] *)
Definition existing_use (voucher_uses : list VoucherUse) (vid uid : Z)
  : option VoucherUse :=
  find (fun u => (use_voucher_id u =? vid) && (use_user_id u =? uid))
       voucher_uses.

(** *** [DiscountVoucher.is_valid] *)

Definition is_valid (self : DiscountVoucher) (voucher_uses : list VoucherUse)
    (user_id : option Z) (plan_id : option string) (now : datetime)
  : bool * string :=
  if negb (active_flag self) then (false, "Voucher is not active")
  else if match valid_from self with
          | Some f => gtb f now
          | None => false
          end
  then (false, "Voucher is not yet valid")
  else if match valid_until self with
          | Some u => ltb u now
          | None => false
          end
  then (false, "Voucher has expired")
  else if used_count self >=? max_uses self
  then (false, "Voucher usage limit reached")
  else if match plan_id, applicable_plans self with
          | Some p, Some ((_ :: _) as plans) =>
              negb (String.eqb p "") && negb (str_in p plans)
          | _, _ => false
          end
  then (false, "Voucher not applicable to this plan")
  else if match user_id with
          | Some uid =>
              negb (uid =? 0) && single_use_per_user self
              && match existing_use voucher_uses (voucher_id self) uid with
                 | Some _ => true
                 | None => false
                 end
          | None => false
          end
  then (false, "Voucher already used by this user")
  else (true, "Voucher is valid").

(** *** [DiscountVoucher.calculate_discount]

    [round(x, 2)] on a float: Python takes the decimal with two digits
    after the point that is nearest to the exact value of [x], a tie
    going to the even last digit, and returns the float nearest to that
    decimal.  A finite float is [m * 2^e]; [nearest_cents] is the first
    step, in whole cents. *)





(** ** The database and the payment provider *)

Record User : Type := {
  uid : Z;
  email : string;
  user_stripe_customer_id : option string
}.

Record Database : Type := {
  users : list User;
  plans : list SubscriptionPlan;
  subscriptions : list UserSubscription;
  vouchers : list DiscountVoucher;
  voucher_uses : list VoucherUse
}.

(** The subscription the provider returns, with [latest_invoice] and
    its [payment_intent] expanded: either may be null (an invoice with
    nothing to pay has no payment intent). *)
Record PaymentIntent : Type := {
  intent_id : string;
  client_secret : string
}.

Record Invoice : Type := {
  payment_intent : option PaymentIntent
}.

Record StripeSubscription : Type := {
  stripe_id : string;
  latest_invoice : option Invoice
}.

(** What the provider answers to each kind of call: a value, or the
    message of the [StripeError] it raises. *)
Record Stripe : Type := {
  customer_create : string + string;
  coupon_create : string + string;
  subscription_create : StripeSubscription + string;
  subscription_delete : unit + string;
  subscription_modify : unit + string
}.

(** The [{'success': ..}] dictionaries the service returns. *)
Inductive Result (A : Type) : Type :=
| Success (payload : A)
| Failure (error : string).

Arguments Success {A} payload.
Arguments Failure {A} error.

Record AppliedVoucher : Type := {
  stripe_coupon_id : string;
  applied_voucher_id : Z
}.

Record CreatedSubscription : Type := {
  subscription_id : Z;
  created_stripe_subscription_id : option string;
  created_client_secret : option string;
  created_payment_intent_id : option string
}.

(** Apply [f] to the first row that satisfies [p]: the object a
    [.first()] query returned, written back on commit. *)
Fixpoint update_first {A : Type} (p : A -> bool) (f : A -> A) (l : list A)
  : list A :=
  match l with
  | [] => []
  | x :: l => if p x then f x :: l else x :: update_first p f l
  end.

Definition with_users (db : Database) (v : list User) : Database :=
  {| users := v; plans := plans db; subscriptions := subscriptions db;
     vouchers := vouchers db; voucher_uses := voucher_uses db |}.

Definition with_subscriptions (db : Database) (v : list UserSubscription)
  : Database :=
  {| users := users db; plans := plans db; subscriptions := v;
     vouchers := vouchers db; voucher_uses := voucher_uses db |}.

(** [DiscountVoucher.query.filter_by(code=..).first()] *)
Definition voucher_by_code (db : Database) (c : string)
  : option DiscountVoucher :=
  find (fun v => String.eqb (code v) c) (vouchers db).

Definition active_of (user : Z) (s : UserSubscription) : bool :=
  (user_id s =? user) && String.eqb (status s) "active".

(** *** [PaymentService.get_user_subscription] *)
Definition get_user_subscription (db : Database) (user : Z)
  : option UserSubscription :=
  find (active_of user) (subscriptions db).

(** The primary key the database gives the next inserted row. *)
Definition next_subscription_id (db : Database) : Z :=
  1 + fold_right Z.max 0 (map sub_id (subscriptions db)).

(** [int(x)] raises on a float that is not finite; the message is the
    one the caller's [except Exception] turns into the error. *)
Definition int_conversion_error (x : float) : option string :=
  if PrimFloat.is_nan x then Some "cannot convert float NaN to integer"
  else if PrimFloat.is_infinity x
  then Some "cannot convert float infinity to integer"
  else None.

(** *** [PaymentService._apply_voucher] *)

Definition _apply_voucher (db : Database) (stripe : Stripe)
    (voucher_code : string) (user : Z) (plan_id : string) (now : datetime)
  : Result AppliedVoucher :=
  match voucher_by_code db voucher_code with
  | None => Failure "Invalid voucher code"
  | Some voucher =>
    let (valid, error_message) :=
      is_valid voucher (voucher_uses db) (Some user) (Some plan_id) now in
    if negb valid then Failure error_message
    else
      let stripe_coupon :=
        if String.eqb (discount_type voucher) "percentage" then
          inl (coupon_create stripe)
        else
          match int_conversion_error (discount_value voucher * 100)%float with
          | Some e => inr e
          | None => inl (coupon_create stripe)
          end in
      match stripe_coupon with
      | inr e => Failure e
      | inl (inr e) => Failure ("Voucher processing error: " ++ e)
      | inl (inl coupon) =>
          Success {| stripe_coupon_id := coupon;
                     applied_voucher_id := voucher_id voucher |}
      end
  end.

(** *** [PaymentService._create_free_subscription] *)

(** [SubscriptionPlan.query.get(plan_id)] *)
Definition plan_by_id (db : Database) (plan_id : string)
  : option SubscriptionPlan :=
  find (fun p => String.eqb (plan_key p) plan_id) (plans db).

(** [UserSubscription(...)] added to the session and committed: the
    columns not given take their defaults. *)
Definition new_subscription (db : Database) (user : Z)
    (plan_id : string) (st cycle : string)
    (next_billing : option datetime) (stripe_sub stripe_cust : option string)
    (now : datetime) : UserSubscription :=
  {| sub_id := next_subscription_id db; user_id := user;
     plan_id := plan_id; plan := plan_by_id db plan_id; status := st;
     billing_cycle := cycle; start_date := Some now; end_date := None;
     next_billing_date := next_billing; cancelled_at := None;
     stripe_subscription_id := stripe_sub;
     stripe_customer_id := stripe_cust;
     interviews_used_this_month := 0; cvs_created := 0;
     business_cards_created := 0; usage_reset_date := Some now;
     created_at := Some now; updated_at := Some now |}.

Definition _create_free_subscription (db : Database) (user : Z)
    (plan_id : string) (now : datetime)
  : Result CreatedSubscription * Database :=
  let cancelled :=
    update_first (active_of user)
      (fun existing =>
         commit existing
           (set_cancelled_at (set_status existing "cancelled") (Some now))
           now)
      (subscriptions db) in
  let user_subscription :=
    new_subscription db user plan_id "active" "monthly" None None None now in
  (Success {| subscription_id := sub_id user_subscription;
              created_stripe_subscription_id := None;
              created_client_secret := None;
              created_payment_intent_id := None |},
   with_subscriptions db (cancelled ++ [user_subscription])%list).

(** *** [PaymentService.create_subscription]

    The row is added and committed before the answer is built; the
    answer reads [latest_invoice.payment_intent] of the provider's
    subscription, and the [AttributeError] of a null one is caught by
    the [except Exception] of the method, after the commit. *)

Definition create_subscription
    (db : Database) (stripe : Stripe) (user : Z) (plan_id : string)
    (billing_cycle : string) (voucher_code : option string) (now : datetime)
  : Result CreatedSubscription * Database :=
  match find (fun u => uid u =? user) (users db), plan_by_id db plan_id with
  | Some u, Some plan =>
    if (price_monthly plan =? 0)%float then
      _create_free_subscription db user plan_id now
    else
      let customer :=
        if truthy_str (user_stripe_customer_id u)
        then inl (user_stripe_customer_id u, db)
        else
          match customer_create stripe with
          | inr e => inr ("Failed to create Stripe customer: " ++ e)
          | inl c =>
            inl (Some c,
                 with_users db
                   (update_first (fun u => uid u =? user)
                      (fun u => {| uid := uid u; email := email u;
                                   user_stripe_customer_id := Some c |})
                      (users db)))
          end in
      match customer with
      | inr e => (Failure e, db)
      | inl (stripe_customer, db) =>
        let price_id :=
          if String.eqb billing_cycle "monthly"
          then stripe_price_id_monthly plan
          else stripe_price_id_yearly plan in
        if negb (truthy_str price_id) then
          (Failure "Stripe price not configured for this plan", db)
        else
          let voucher_result :=
            if truthy_str voucher_code then
              match voucher_code with
              | Some c => Some (_apply_voucher db stripe c user plan_id now)
              | None => None
              end
            else None in
          match voucher_result with
          | Some (Failure e) => (Failure e, db)
          | _ =>
            match subscription_create stripe with
            | inr e => (Failure ("Payment processing error: " ++ e), db)
            | inl stripe_subscription =>
              let next_billing :=
                if String.eqb billing_cycle "monthly"
                then plus_days now 30 else plus_days now 365 in
              let user_subscription :=
                new_subscription db user plan_id "pending" billing_cycle
                  (Some next_billing) (Some (stripe_id stripe_subscription))
                  stripe_customer now in
              let db :=
                with_subscriptions db
                  (subscriptions db ++ [user_subscription])%list in
              match latest_invoice stripe_subscription with
              | None =>
                (Failure "'NoneType' object has no attribute 'payment_intent'",
                 db)
              | Some invoice =>
                match payment_intent invoice with
                | None =>
                  (Failure
                     "'NoneType' object has no attribute 'client_secret'",
                   db)
                | Some intent =>
                  (Success
                     {| subscription_id := sub_id user_subscription;
                        created_stripe_subscription_id :=
                          Some (stripe_id stripe_subscription);
                        created_client_secret := Some (client_secret intent);
                        created_payment_intent_id := Some (intent_id intent) |},
                   db)
                end
              end
            end
          end
      end
  | _, _ => (Failure "User or plan not found", db)
  end.

(** *** [PaymentService.cancel_subscription] *)

Definition cancel_subscription (db : Database) (stripe : Stripe) (user : Z)
    (immediate : bool) (now : datetime) : Result bool * Database :=
  match get_user_subscription db user with
  | None => (Failure "No active subscription found", db)
  | Some subscription =>
    let outcome :=
      if truthy_str (stripe_subscription_id subscription) then
        if immediate then
          match subscription_delete stripe with
          | inr e => inr e
          | inl _ =>
            inl (set_end_date (set_status subscription "cancelled")
                   (Some now))
          end
        else
          match subscription_modify stripe with
          | inr e => inr e
          | inl _ => inl (set_status subscription "cancelled")
          end
      else
        inl (set_end_date (set_status subscription "cancelled") (Some now)) in
    match outcome with
    | inr e => (Failure ("Payment processing error: " ++ e), db)
    | inl cancelled =>
      let subscription :=
        commit subscription (set_cancelled_at cancelled (Some now)) now in
      (Success immediate,
       with_subscriptions db
         (update_first (active_of user) (fun _ => subscription)
            (subscriptions db)))
    end
  end.

(** *** [PaymentService.validate_voucher] *)

Definition validate_voucher (db : Database) (voucher_code : string)
    (user : option Z) (plan_id : option string) (now : datetime)
  : Result DiscountVoucher :=
  match voucher_by_code db voucher_code with
  | None => Failure "Invalid voucher code"
  | Some voucher =>
    let (valid, error_message) :=
      is_valid voucher (voucher_uses db) user plan_id now in
    if valid then Success voucher else Failure error_message
  end.

(** ** Vocabulary of the properties *)

(** The three feature kinds that have a counter and a limit. *)
Definition countable (feature_type : string) : bool :=
  String.eqb feature_type "interview"
  || String.eqb feature_type "cv"
  || String.eqb feature_type "business_card".

(** The plan's limit for a countable kind. *)
Definition limit_of (p : SubscriptionPlan) (feature_type : string) : Z :=
  if String.eqb feature_type "interview" then max_interviews_per_month p
  else if String.eqb feature_type "cv" then max_cvs p
  else max_business_cards p.

(** The subscription's counter for a countable kind. *)
Definition counter_of (s : UserSubscription) (feature_type : string) : Z :=
  if String.eqb feature_type "interview" then interviews_used_this_month s
  else if String.eqb feature_type "cv" then cvs_created s
  else business_cards_created s.

(** The test that guards the monthly reset inside [can_use_feature]. *)
Definition reset_due (s : UserSubscription) (now : datetime) : bool :=
  match usage_reset_date s with
  | Some d => ltb d (replace_day now 1)
  | None => false
  end.

(** The row the monthly reset of [can_use_feature] leaves. *)
Definition rolled_over (s : UserSubscription) (now : datetime)
  : UserSubscription :=
  if reset_due s now
  then commit s
         (set_usage_reset_date (set_interviews_used_this_month s 0)
            (Some (replace_day now 1)))
         now
  else s.

(** ** Sample data

    Three of the plans of [create_subscription_plans], and rows and
    instants used to evaluate the code. *)

Definition plan_of (key : string) (interviews cvs cards : Z)
    (feedback : bool) (price : float) (monthly yearly : option string)
  : SubscriptionPlan :=
  {| plan_key := key; max_interviews_per_month := interviews;
     max_cvs := cvs; max_business_cards := cards;
     ai_feedback := feedback; advanced_analytics := false;
     priority_support := false; custom_branding := false;
     price_monthly := price; stripe_price_id_monthly := monthly;
     stripe_price_id_yearly := yearly |}.

Definition free_plan : SubscriptionPlan :=
  plan_of "free" 3 1 1 false 0%float None None.

Definition basic_plan : SubscriptionPlan :=
  plan_of "basic" 20 5 3 true 0x1.3fae147ae147bp+3%float
    (Some "price_basic_m") (Some "price_basic_y").

(** [datetime(y, m, d, h, mi)] *)
Definition at_ (y m d h mi : Z) : datetime :=
  DateTime.mk y m d h mi 0 0.

Definition subscription_of (p : SubscriptionPlan) (st : string)
    (stripe_sub : option string) (next_billing : option datetime)
    (interviews cvs cards : Z) (reset : datetime) : UserSubscription :=
  {| sub_id := 1; user_id := 7; plan_id := plan_key p; plan := Some p;
     status := st; billing_cycle := "monthly";
     start_date := Some (at_ 2024 1 10 9 0); end_date := None;
     next_billing_date := next_billing; cancelled_at := None;
     stripe_subscription_id := stripe_sub;
     stripe_customer_id := option_map (fun _ => "cus_7") stripe_sub;
     interviews_used_this_month := interviews; cvs_created := cvs;
     business_cards_created := cards; usage_reset_date := Some reset;
     created_at := Some (at_ 2024 1 10 9 0); updated_at := Some reset |}.

Definition feb_10 : datetime := at_ 2024 2 10 9 0.
Definition march_1_9h : datetime := at_ 2024 3 1 9 0.
Definition march_5 : datetime := at_ 2024 3 5 12 0.
Definition march_15 : datetime := at_ 2024 3 15 12 0.
Definition march_15_9h : datetime := at_ 2024 3 15 9 0.

(** On the basic plan with all five CVs used; counters last reset this
    month. *)
Definition sub_cv_limit : UserSubscription :=
  subscription_of basic_plan "active" (Some "sub_1") (Some march_15)
    4 5 0 march_1_9h.

(** On the free plan with the three interviews of February used and one
    CV created; counters last reset in February. *)
Definition sub_stale : UserSubscription :=
  subscription_of free_plan "active" None None 3 1 0 feb_10.

(** On the basic plan with two interviews used since the reset made on
    5 March at nine. *)
Definition sub_march : UserSubscription :=
  subscription_of basic_plan "active" (Some "sub_1") (Some march_15)
    2 0 0 march_1_9h.


(** On the free plan with its three interviews used since the reset made
    in March at nine. *)
Definition sub_interview_limit : UserSubscription :=
  subscription_of free_plan "active" None None 3 1 0 march_1_9h.

(** A subscription cancelled earlier. *)
Definition sub_cancelled : UserSubscription :=
  subscription_of basic_plan "cancelled" (Some "sub_1") (Some march_15)
    0 0 0 march_1_9h.

(** ** Voucher validation as the specification words it

    An ordered list of checks, each with the reason given when it is
    the first to fail. *)

Definition plan_given (plan_id : option string) : bool := truthy_str plan_id.

Definition user_given (user : option Z) : bool := truthy_int user.

(** The allow-list, empty when the column holds none. *)
Definition allow_list (v : DiscountVoucher) : list string :=
  match applicable_plans v with
  | Some l => l
  | None => []
  end.

Definition in_allow_list (v : DiscountVoucher) (plan_id : option string)
  : bool :=
  match plan_id with
  | Some p => str_in p (allow_list v)
  | None => false
  end.

Definition redeemed_by (v : DiscountVoucher) (uses : list VoucherUse)
    (user : option Z) : bool :=
  match user with
  | Some u =>
      existsb (fun r => (use_voucher_id r =? voucher_id v)
                        && (use_user_id r =? u)) uses
  | None => false
  end.

Definition validation_checks (v : DiscountVoucher) (uses : list VoucherUse)
    (user : option Z) (plan_id : option string) (now : datetime)
  : list (bool * string) :=
  [ (active_flag v, "Voucher is not active");
    (match valid_from v with Some f => leb f now | None => true end,
     "Voucher is not yet valid");
    (match valid_until v with Some u => leb now u | None => true end,
     "Voucher has expired");
    (used_count v <? max_uses v, "Voucher usage limit reached");
    (if plan_given plan_id && negb (List.length (allow_list v) =? 0)%nat
     then in_allow_list v plan_id else true,
     "Voucher not applicable to this plan");
    (if user_given user && single_use_per_user v
     then negb (redeemed_by v uses user) else true,
     "Voucher already used by this user") ].

(** The reason of the first check that fails. *)
Definition first_failure (checks : list (bool * string)) : option string :=
  option_map snd (find (fun c => negb (fst c)) checks).

Definition validate_spec (db : Database) (voucher_code : string)
    (user : option Z) (plan_id : option string) (now : datetime)
  : Result DiscountVoucher :=
  match voucher_by_code db voucher_code with
  | None => Failure "Invalid voucher code"
  | Some v =>
    match first_failure (validation_checks v (voucher_uses db) user plan_id
                           now) with
    | Some reason => Failure reason
    | None => Success v
    end
  end.

(** Every reason a validation can give. *)
Definition failure_reasons : list string :=
  "Invalid voucher code"
  :: map snd (validation_checks
                {| voucher_id := 0; code := ""; discount_type := "";
                   discount_value := 0%float; currency := "";
                   max_uses := 0; used_count := 0;
                   single_use_per_user := false; valid_from := None;
                   valid_until := None; applicable_plans := None;
                   active_flag := false |} [] None None (at_ 0 0 0 0 0)).

(** ** Sample vouchers, provider replies and databases *)

(** Twenty per cent off, ten uses, valid from 10 February to 5 March at
    noon. *)
Definition spring_voucher : DiscountVoucher :=
  {| voucher_id := 1; code := "SPRING"; discount_type := "percentage";
     discount_value := 20%float; currency := "USD"; max_uses := 10;
     used_count := 0; single_use_per_user := true;
     valid_from := Some feb_10; valid_until := Some march_5;
     applicable_plans := None; active_flag := true |}.



Definition stripe_ok : Stripe :=
  {| customer_create := inl "cus_7";
     coupon_create := inl "voucher_1_7_1709640000";
     subscription_create :=
       inl {| stripe_id := "sub_1";
              latest_invoice :=
                Some {| payment_intent :=
                          Some {| intent_id := "pi_1";
                                  client_secret := "secret" |} |} |};
     subscription_delete := inl tt;
     subscription_modify := inl tt |}.

Definition db_new_user : Database :=
  {| users := [ {| uid := 7; email := "a@example.org";
                   user_stripe_customer_id := None |} ];
     plans := [free_plan; basic_plan];
     subscriptions := [];
     vouchers := [spring_voucher];
     voucher_uses := [] |}.

(** An active monthly subscription paid through the provider, next
    billed on 15 March. *)
Definition sub_paid : UserSubscription :=
  subscription_of basic_plan "active" (Some "sub_1") (Some march_15)
    0 0 0 march_1_9h.

Definition db_paid : Database :=
  with_subscriptions db_new_user [sub_paid].

(** ** The remaining operations of the payment service

    The payment transactions are a table of their own, kept beside the
    tables of [Database]. *)

Record PaymentTransaction : Type := {
  tx_user_id : Z;
  tx_subscription_id : option Z;
  transaction_type : string;
  tx_status : string;
  amount : float;
  tx_currency : string;
  stripe_invoice_id : option string;
  description : string
}.

Record Store : Type := {
  base : Database;
  payment_transactions : list PaymentTransaction
}.

(** The object of a provider event, with the keys the handlers read:
    every invoice carries them; of a subscription object only [id] is
    read. *)
Record StripeObject : Type := {
  obj_id : string;
  obj_subscription : option string;
  amount_paid : Z;
  amount_due : Z;
  obj_currency : string
}.

Record Event : Type := {
  event_type : string;
  event_object : StripeObject
}.

(** What [stripe.Webhook.construct_event] does with the payload and its
    signature: the event, or one of the exceptions the handler tells
    apart. *)
Inductive Verified : Type :=
| Constructed (event : Event)
| InvalidPayload
| InvalidSignature
| OtherError (message : string).

(** [n / 100] for an amount in cents (an [int] from 0 to [2^53], which
    Python converts exactly before it divides). *)
Definition cents_to_units (n : Z) : float :=
  (PrimFloat.of_uint63 (Uint63.of_Z n) / 100)%float.

(** [str.upper()] on the ASCII letters of a currency code. *)
Definition upper_char (c : Ascii.ascii) : Ascii.ascii :=
  let n := Ascii.nat_of_ascii c in
  if (Nat.leb 97 n && Nat.leb n 122)%bool
  then Ascii.ascii_of_nat (n - 32) else c.

Fixpoint upper (s : string) : string :=
  match s with
  | EmptyString => EmptyString
  | String c s => String (upper_char c) (upper s)
  end.

Definition set_next_billing_date (s : UserSubscription)
    (v : option datetime) : UserSubscription :=
  {| sub_id := sub_id s; user_id := user_id s; plan_id := plan_id s;
     plan := plan s; status := status s; billing_cycle := billing_cycle s;
     start_date := start_date s; end_date := end_date s;
     next_billing_date := v;
     cancelled_at := cancelled_at s;
     stripe_subscription_id := stripe_subscription_id s;
     stripe_customer_id := stripe_customer_id s;
     interviews_used_this_month := interviews_used_this_month s;
     cvs_created := cvs_created s;
     business_cards_created := business_cards_created s;
     usage_reset_date := usage_reset_date s;
     created_at := created_at s; updated_at := updated_at s |}.

(** [filter_by(stripe_subscription_id=sid)] *)
Definition has_stripe_id (sid : string) (s : UserSubscription) : bool :=
  match stripe_subscription_id s with
  | Some x => String.eqb x sid
  | None => false
  end.

Definition with_base (st : Store) (db : Database) : Store :=
  {| base := db; payment_transactions := payment_transactions st |}.

(** *** [PaymentService._handle_payment_succeeded] *)

Definition _handle_payment_succeeded (st : Store) (invoice : StripeObject)
    (now : datetime) : Result string * Store :=
  if negb (truthy_str (obj_subscription invoice)) then
    (Success "Not a subscription payment", st)
  else
    match obj_subscription invoice with
    | None => (Success "Not a subscription payment", st)
    | Some sid =>
      match find (has_stripe_id sid) (subscriptions (base st)) with
      | None => (Success "Payment processed", st)
      | Some user_subscription =>
        let activated := set_status user_subscription "active" in
        let activated :=
          set_next_billing_date activated
            (Some (if String.eqb (billing_cycle activated) "monthly"
                   then plus_days now 30 else plus_days now 365)) in
        let activated := commit user_subscription activated now in
        let transaction :=
          {| tx_user_id := user_id activated;
             tx_subscription_id := Some (sub_id activated);
             transaction_type := "subscription";
             tx_status := "completed";
             amount := cents_to_units (amount_paid invoice);
             tx_currency := upper (obj_currency invoice);
             stripe_invoice_id := Some (obj_id invoice);
             description :=
               "Subscription payment for " ++ plan_id activated |} in
        (Success "Payment processed",
         {| base :=
              with_subscriptions (base st)
                (update_first (has_stripe_id sid) (fun _ => activated)
                   (subscriptions (base st)));
            payment_transactions :=
              (payment_transactions st ++ [transaction])%list |})
      end
    end.

(** *** [PaymentService._handle_payment_failed] *)

Definition _handle_payment_failed (st : Store) (invoice : StripeObject)
  : Result string * Store :=
  if negb (truthy_str (obj_subscription invoice)) then
    (Success "Not a subscription payment", st)
  else
    match obj_subscription invoice with
    | None => (Success "Not a subscription payment", st)
    | Some sid =>
      match find (has_stripe_id sid) (subscriptions (base st)) with
      | None => (Success "Failed payment processed", st)
      | Some user_subscription =>
        let transaction :=
          {| tx_user_id := user_id user_subscription;
             tx_subscription_id := Some (sub_id user_subscription);
             transaction_type := "subscription";
             tx_status := "failed";
             amount := cents_to_units (amount_due invoice);
             tx_currency := upper (obj_currency invoice);
             stripe_invoice_id := Some (obj_id invoice);
             description :=
               "Failed subscription payment for "
               ++ plan_id user_subscription |} in
        (Success "Failed payment processed",
         {| base := base st;
            payment_transactions :=
              (payment_transactions st ++ [transaction])%list |})
      end
    end.

(** *** [PaymentService._handle_subscription_deleted] *)

Definition _handle_subscription_deleted (st : Store)
    (subscription : StripeObject) (now : datetime) : Result string * Store :=
  match find (has_stripe_id (obj_id subscription))
          (subscriptions (base st)) with
  | None => (Success "Subscription cancelled", st)
  | Some user_subscription =>
    let cancelled :=
      commit user_subscription
        (set_cancelled_at
           (set_end_date (set_status user_subscription "cancelled") (Some now))
           (Some now))
        now in
    (Success "Subscription cancelled",
     with_base st
       (with_subscriptions (base st)
          (update_first (has_stripe_id (obj_id subscription))
             (fun _ => cancelled) (subscriptions (base st)))))
  end.

(** *** [PaymentService.handle_stripe_webhook] *)

Definition handle_stripe_webhook (st : Store) (verified : Verified)
    (now : datetime) : Result string * Store :=
  match verified with
  | Constructed event =>
    if String.eqb (event_type event) "invoice.payment_succeeded" then
      _handle_payment_succeeded st (event_object event) now
    else if String.eqb (event_type event) "invoice.payment_failed" then
      _handle_payment_failed st (event_object event)
    else if String.eqb (event_type event) "customer.subscription.deleted" then
      _handle_subscription_deleted st (event_object event) now
    else (Success "Event processed", st)
  | InvalidPayload => (Failure "Invalid payload", st)
  | InvalidSignature => (Failure "Invalid signature", st)
  | OtherError message => (Failure message, st)
  end.

(** *** [PaymentService.create_voucher] *)

Definition with_vouchers (db : Database) (v : list DiscountVoucher)
  : Database :=
  {| users := users db; plans := plans db; subscriptions := subscriptions db;
     vouchers := v; voucher_uses := voucher_uses db |}.

Definition next_voucher_id (db : Database) : Z :=
  1 + fold_right Z.max 0 (map voucher_id (vouchers db)).

Definition create_voucher (db : Database) (new_code discount_kind : string)
    (value : float) (until : datetime) (uses_allowed : Z)
    (for_plans : option (list string)) (now : datetime)
  : Result Z * Database :=
  match voucher_by_code db new_code with
  | Some _ => (Failure "Voucher code already exists", db)
  | None =>
    let voucher :=
      {| voucher_id := next_voucher_id db; code := new_code;
         discount_type := discount_kind; discount_value := value;
         currency := "USD"; max_uses := uses_allowed; used_count := 0;
         single_use_per_user := true; valid_from := Some now;
         valid_until := Some until;
         applicable_plans :=
           match for_plans with
           | Some ((_ :: _) as l) => Some l
           | _ => None
           end;
         active_flag := true |} in
    (Success (voucher_id voucher),
     with_vouchers db (vouchers db ++ [voucher])%list)
  end.

(** *** [PaymentService.create_subscription_plans]

    The columns of the default plans that [SubscriptionPlan] carries. *)

Definition default_plan (key : string) (interviews cvs cards : Z)
    (feedback analytics support branding : bool) (price : float)
  : SubscriptionPlan :=
  {| plan_key := key; max_interviews_per_month := interviews;
     max_cvs := cvs; max_business_cards := cards;
     ai_feedback := feedback; advanced_analytics := analytics;
     priority_support := support; custom_branding := branding;
     price_monthly := price; stripe_price_id_monthly := None;
     stripe_price_id_yearly := None |}.

Definition plans_data : list SubscriptionPlan :=
  [ default_plan "free" 3 1 1 false false false false 0%float;
    default_plan "basic" 20 5 3 true false false false
      0x1.3fae147ae147bp+3%float;
    default_plan "premium" 0 0 0 true true true false
      0x1.3fd70a3d70a3dp+4%float;
    default_plan "enterprise" 0 0 0 true true true true
      0x1.8feb851eb851fp+5%float ].

Definition with_plans (db : Database) (v : list SubscriptionPlan)
  : Database :=
  {| users := users db; plans := v; subscriptions := subscriptions db;
     vouchers := vouchers db; voucher_uses := voucher_uses db |}.

Definition add_plan_if_missing (db : Database) (plan_data : SubscriptionPlan)
  : Database :=
  match plan_by_id db (plan_key plan_data) with
  | Some _ => db
  | None => with_plans db (plans db ++ [plan_data])%list
  end.

Definition create_subscription_plans (db : Database) : Database :=
  fold_left add_plan_if_missing plans_data db.

(** ** The [/subscribe] and [/usage] handlers *)




Record UsageStats : Type := {
  current_plan : option SubscriptionPlan;
  stat_interviews_used_this_month : Z;
  stat_cvs_created : Z;
  stat_business_cards_created : Z;
  stat_usage_reset_date : option datetime;
  limit_interviews_per_month : Z;
  limit_cvs : Z;
  limit_business_cards : Z;
  feature_ai_feedback : bool;
  feature_advanced_analytics : bool;
  feature_priority_support : bool;
  feature_custom_branding : bool
}.

(** The statistics are read in the order of the dictionary: the usage
    and the limits first, then the four feature checks, each on the row
    the one before left.  [None] is the 404 answer. *)
Definition get_usage_stats (subscription : option UserSubscription)
    (now : datetime) : option UsageStats * option UserSubscription :=
  match subscription with
  | None => (None, None)
  | Some subscription =>
    let p := plan subscription in
    let limit (f : SubscriptionPlan -> Z) :=
      match p with Some p => f p | None => 0 end in
    let used_interviews := interviews_used_this_month subscription in
    let used_cvs := cvs_created subscription in
    let used_cards := business_cards_created subscription in
    let reset := usage_reset_date subscription in
    let (f1, s1) := can_use_feature subscription "ai_feedback" now in
    let (f2, s2) := can_use_feature s1 "advanced_analytics" now in
    let (f3, s3) := can_use_feature s2 "priority_support" now in
    let (f4, s4) := can_use_feature s3 "custom_branding" now in
    (Some {| current_plan := p;
             stat_interviews_used_this_month := used_interviews;
             stat_cvs_created := used_cvs;
             stat_business_cards_created := used_cards;
             stat_usage_reset_date := reset;
             limit_interviews_per_month := limit max_interviews_per_month;
             limit_cvs := limit max_cvs;
             limit_business_cards := limit max_business_cards;
             feature_ai_feedback := f1;
             feature_advanced_analytics := f2;
             feature_priority_support := f3;
             feature_custom_branding := f4 |},
     Some s4)
  end.

(** ** Further vocabulary *)

(** The verdict of [can_use_feature] on the row the monthly reset left. *)
Definition verdict (p : SubscriptionPlan) (row : UserSubscription)
    (feature_type : string) : bool :=
  if String.eqb feature_type "interview" then
    (max_interviews_per_month p =? 0)
    || (interviews_used_this_month row <? max_interviews_per_month p)
  else if String.eqb feature_type "cv" then
    (max_cvs p =? 0) || (cvs_created row <? max_cvs p)
  else if String.eqb feature_type "business_card" then
    (max_business_cards p =? 0)
    || (business_cards_created row <? max_business_cards p)
  else if String.eqb feature_type "ai_feedback" then ai_feedback p
  else if String.eqb feature_type "advanced_analytics" then
    advanced_analytics p
  else if String.eqb feature_type "priority_support" then priority_support p
  else if String.eqb feature_type "custom_branding" then custom_branding p
  else false.

(** The seven feature kinds the check knows. *)
Definition known_feature (feature_type : string) : bool :=
  countable feature_type
  || String.eqb feature_type "ai_feedback"
  || String.eqb feature_type "advanced_analytics"
  || String.eqb feature_type "priority_support"
  || String.eqb feature_type "custom_branding".

(** No counter with a positive limit is above it. *)
Definition within_limits (p : SubscriptionPlan) (row : UserSubscription)
  : Prop :=
  forall f, countable f = true -> 0 < limit_of p f ->
            counter_of row f <= limit_of p f.

(** The subscriptions of a user whose status is [active]. *)
Definition active_rows (db : Database) (user : Z) : list UserSubscription :=
  filter (active_of user) (subscriptions db).

(** * Properties *)

(** ** The order on datetimes *)

Module DateTimeFacts.

Ltac cases :=
  repeat match goal with
         | |- context [?x ?= ?y] =>
             destruct (Z.compare_spec x y); cbn [lex]; try lia
         end.

Lemma compare_refl (a : datetime) : compare a a = Eq.
Proof. unfold compare. now rewrite !Z.compare_refl. Qed.

Lemma compare_antisym (a b : datetime) :
  compare b a = CompOpp (compare a b).
Proof.
  unfold compare.
  rewrite (Z.compare_antisym (year a)), (Z.compare_antisym (month a)),
    (Z.compare_antisym (day a)), (Z.compare_antisym (hour a)),
    (Z.compare_antisym (minute a)), (Z.compare_antisym (second a)),
    (Z.compare_antisym (microsecond a)).
  destruct (year a ?= year b), (month a ?= month b), (day a ?= day b),
    (hour a ?= hour b), (minute a ?= minute b), (second a ?= second b),
    (microsecond a ?= microsecond b); reflexivity.
Qed.

Lemma ltb_irrefl (a : datetime) : ltb a a = false.
Proof. unfold ltb. now rewrite compare_refl. Qed.

Lemma gtb_irrefl (a : datetime) : gtb a a = false.
Proof. unfold gtb. now rewrite compare_refl. Qed.

(** [not (a > b)] is [a <= b] and [not (a < b)] is [b <= a]. *)
Lemma gtb_leb (a b : datetime) : gtb a b = negb (leb a b).
Proof. unfold gtb, leb. now destruct (compare a b). Qed.

Lemma ltb_leb (a b : datetime) : ltb a b = negb (leb b a).
Proof.
  unfold ltb, leb. rewrite (compare_antisym a b).
  now destruct (compare a b).
Qed.

Lemma gtb_ltb (a b : datetime) : gtb a b = ltb b a.
Proof. now rewrite gtb_leb, ltb_leb. Qed.

(** A date before the midnight that opens the month of [now] is before
    day 1 of that month at any time of day. *)
Lemma ltb_month_start (d now : datetime) :
  time_of_day_ok now ->
  ltb d (month_start now) = true ->
  ltb d (replace_day now 1) = true.
Proof.
  unfold time_of_day_ok, ltb, compare, month_start, replace_day.
  cbn [year month day hour minute second microsecond].
  intros (Hh & Hm & Hs & Hu).
  cases; try discriminate; try reflexivity.
Qed.

End DateTimeFacts.

(** ** Rows written back *)

Lemma same_date_refl (d : option datetime) : same_date d d = true.
Proof.
  destruct d as [d|]; [|reflexivity].
  cbn. now rewrite DateTimeFacts.compare_refl.
Qed.

Lemma same_text_refl (t : option string) : same_text t t = true.
Proof. destruct t as [t|]; [apply String.eqb_refl | reflexivity]. Qed.

Lemma same_columns_refl (s : UserSubscription) : same_columns s s = true.
Proof.
  unfold same_columns.
  now rewrite !Z.eqb_refl, !String.eqb_refl, !same_date_refl, !same_text_refl.
Qed.

(** A commit with nothing assigned writes nothing. *)
Lemma commit_unchanged (s : UserSubscription) (now : datetime) :
  commit s s now = s.
Proof. unfold commit. now rewrite same_columns_refl. Qed.

Lemma set_updated_at_same (s : UserSubscription) :
  set_updated_at s (updated_at s) = s.
Proof. now destruct s. Qed.

Section Commit.

Variables (loaded row : UserSubscription) (now : datetime).

(** A commit changes [updated_at] at most. *)
Lemma commit_cases :
  commit loaded row now = row
  \/ commit loaded row now = set_updated_at row (Some now).
Proof. unfold commit. destruct (same_columns loaded row); auto. Qed.

Lemma commit_frame :
  set_updated_at (commit loaded row now) (updated_at row) = row.
Proof.
  unfold commit. destruct (same_columns loaded row); now destruct row.
Qed.

Ltac by_cases := unfold commit; now destruct (same_columns loaded row).

Lemma commit_sub_id : sub_id (commit loaded row now) = sub_id row.
Proof. by_cases. Qed.

Lemma commit_user_id : user_id (commit loaded row now) = user_id row.
Proof. by_cases. Qed.

Lemma commit_plan_id : plan_id (commit loaded row now) = plan_id row.
Proof. by_cases. Qed.

Lemma commit_plan : plan (commit loaded row now) = plan row.
Proof. by_cases. Qed.

Lemma commit_status : status (commit loaded row now) = status row.
Proof. by_cases. Qed.

Lemma commit_billing_cycle :
  billing_cycle (commit loaded row now) = billing_cycle row.
Proof. by_cases. Qed.

Lemma commit_start_date : start_date (commit loaded row now) = start_date row.
Proof. by_cases. Qed.

Lemma commit_end_date : end_date (commit loaded row now) = end_date row.
Proof. by_cases. Qed.

Lemma commit_next_billing_date :
  next_billing_date (commit loaded row now) = next_billing_date row.
Proof. by_cases. Qed.

Lemma commit_cancelled_at :
  cancelled_at (commit loaded row now) = cancelled_at row.
Proof. by_cases. Qed.

Lemma commit_stripe_subscription_id :
  stripe_subscription_id (commit loaded row now)
  = stripe_subscription_id row.
Proof. by_cases. Qed.

Lemma commit_stripe_customer_id :
  stripe_customer_id (commit loaded row now) = stripe_customer_id row.
Proof. by_cases. Qed.

Lemma commit_interviews_used_this_month :
  interviews_used_this_month (commit loaded row now)
  = interviews_used_this_month row.
Proof. by_cases. Qed.

Lemma commit_cvs_created :
  cvs_created (commit loaded row now) = cvs_created row.
Proof. by_cases. Qed.

Lemma commit_business_cards_created :
  business_cards_created (commit loaded row now)
  = business_cards_created row.
Proof. by_cases. Qed.

Lemma commit_usage_reset_date :
  usage_reset_date (commit loaded row now) = usage_reset_date row.
Proof. by_cases. Qed.

Lemma commit_created_at : created_at (commit loaded row now) = created_at row.
Proof. by_cases. Qed.

Lemma commit_is_active (t : datetime) :
  is_active (commit loaded row now) t = is_active row t.
Proof. by_cases. Qed.

Lemma commit_counter_of (f : string) :
  counter_of (commit loaded row now) f = counter_of row f.
Proof. by_cases. Qed.

Lemma commit_active_of (u : Z) :
  active_of u (commit loaded row now) = active_of u row.
Proof. by_cases. Qed.

Lemma commit_has_stripe_id (sid : string) :
  has_stripe_id sid (commit loaded row now) = has_stripe_id sid row.
Proof. by_cases. Qed.

End Commit.

Create Rewrite HintDb commit.

#[local] Hint Rewrite commit_sub_id commit_user_id commit_plan_id commit_plan
  commit_status commit_billing_cycle commit_start_date commit_end_date
  commit_next_billing_date commit_cancelled_at commit_stripe_subscription_id
  commit_stripe_customer_id commit_interviews_used_this_month
  commit_cvs_created commit_business_cards_created commit_usage_reset_date
  commit_created_at commit_is_active commit_counter_of commit_active_of
  commit_has_stripe_id : commit.

(** ** The entitlement check *)

Section Entitlement.

Variables (self : UserSubscription) (feature_type : string) (now : datetime).

Lemma can_use_feature_inactive :
  is_active self now = false ->
  can_use_feature self feature_type now = (false, self).
Proof. unfold can_use_feature. now intros ->. Qed.

Lemma status_not_active :
  status self <> "active" -> is_active self now = false.
Proof.
  intros H. unfold is_active.
  now destruct (String.eqb_spec (status self) "active").
Qed.

Lemma can_use_feature_no_plan :
  plan self = None -> can_use_feature self feature_type now = (false, self).
Proof.
  unfold can_use_feature. intros ->. now destruct (is_active self now).
Qed.

Lemma reset_row :
  match usage_reset_date self with
  | Some d =>
    if ltb d (replace_day now 1)
    then commit self
           (set_usage_reset_date (set_interviews_used_this_month self 0)
              (Some (replace_day now 1)))
           now
    else self
  | None => self
  end = rolled_over self now.
Proof.
  unfold rolled_over, reset_due.
  destruct (usage_reset_date self) as [d|]; [|reflexivity].
  now destruct (ltb d (replace_day now 1)).
Qed.

(** Whatever the verdict, the row returned is the row after the
    monthly reset, when the subscription is active and has a plan. *)
Lemma can_use_feature_row (p : SubscriptionPlan) :
  is_active self now = true -> plan self = Some p ->
  snd (can_use_feature self feature_type now) = rolled_over self now.
Proof.
  intros Ha Hp. unfold can_use_feature.
  rewrite Ha, Hp. cbn [negb]. cbv zeta. rewrite reset_row.
  repeat match goal with
         | |- context [if ?b then _ else _] => destruct b
         end; reflexivity.
Qed.

(** The verdict for a countable kind. *)
Lemma can_use_feature_countable (p : SubscriptionPlan) :
  is_active self now = true -> plan self = Some p ->
  countable feature_type = true ->
  fst (can_use_feature self feature_type now)
  = (limit_of p feature_type =? 0)
    || (counter_of (rolled_over self now) feature_type
        <? limit_of p feature_type).
Proof.
  intros Ha Hp Hc. unfold can_use_feature.
  rewrite Ha, Hp. cbn [negb]. cbv zeta. rewrite reset_row.
  unfold countable in Hc. unfold limit_of, counter_of.
  destruct (String.eqb_spec feature_type "interview") as [->|_].
  - cbn. destruct (max_interviews_per_month p =? 0); reflexivity.
  - destruct (String.eqb_spec feature_type "cv") as [->|_].
    + cbn. destruct (max_cvs p =? 0); reflexivity.
    + destruct (String.eqb_spec feature_type "business_card") as [->|_];
        [|discriminate].
      cbn. destruct (max_business_cards p =? 0); reflexivity.
Qed.

(** The reset touches the interview counter and the reset date only. *)
Lemma rolled_over_counter :
  feature_type <> "interview" \/ reset_due self now = false ->
  counter_of (rolled_over self now) feature_type
  = counter_of self feature_type.
Proof.
  unfold rolled_over. intros [H | ->]; [|reflexivity].
  destruct (reset_due self now); [|reflexivity].
  rewrite commit_counter_of. unfold counter_of.
  now destruct (String.eqb_spec feature_type "interview").
Qed.

End Entitlement.

(** The reset, when due, changes the row that is written back. *)
Lemma reset_changes (s : UserSubscription) (now : datetime) :
  reset_due s now = true ->
  same_columns s
    (set_usage_reset_date (set_interviews_used_this_month s 0)
       (Some (replace_day now 1))) = false.
Proof.
  unfold reset_due, same_columns.
  cbn [usage_reset_date set_usage_reset_date set_interviews_used_this_month].
  destruct (usage_reset_date s) as [d|]; [|discriminate].
  unfold ltb. cbn [same_date].
  destruct (compare d (replace_day now 1)); try discriminate.
  intros _. apply andb_false_r.
Qed.

(** What the monthly reset writes: the interview counter, the reset
    date and [updated_at], and nothing when it is not due. *)
Lemma rolled_over_frame (s : UserSubscription) (now : datetime) :
  set_updated_at
    (set_usage_reset_date
       (set_interviews_used_this_month (rolled_over s now)
          (interviews_used_this_month s))
       (usage_reset_date s))
    (updated_at s) = s
  /\ (rolled_over s now = s
      \/ reset_due s now = true
         /\ interviews_used_this_month (rolled_over s now) = 0
         /\ usage_reset_date (rolled_over s now) = Some (replace_day now 1)
         /\ updated_at (rolled_over s now) = Some now).
Proof.
  unfold rolled_over. destruct (reset_due s now) eqn:H.
  - unfold commit. rewrite (reset_changes s now H).
    split; [now destruct s | right; now repeat split].
  - split; [now destruct s | now left].
Qed.

(** What a check writes, whatever the feature kind and the verdict. *)
Lemma can_use_feature_frame (self : UserSubscription)
    (feature_type : string) (now : datetime) :
  set_updated_at
    (set_usage_reset_date
       (set_interviews_used_this_month
          (snd (can_use_feature self feature_type now))
          (interviews_used_this_month self))
       (usage_reset_date self))
    (updated_at self) = self
  /\ (snd (can_use_feature self feature_type now) = self
      \/ reset_due self now = true
         /\ interviews_used_this_month
              (snd (can_use_feature self feature_type now)) = 0
         /\ usage_reset_date (snd (can_use_feature self feature_type now))
            = Some (replace_day now 1)
         /\ updated_at (snd (can_use_feature self feature_type now))
            = Some now).
Proof.
  destruct (is_active self now) eqn:Ha.
  - destruct (plan self) as [p|] eqn:Hp.
    + rewrite (can_use_feature_row self feature_type now p Ha Hp).
      apply rolled_over_frame.
    + rewrite (can_use_feature_no_plan self feature_type now Hp).
      split; [now destruct self | now left].
  - rewrite (can_use_feature_inactive self feature_type now Ha).
    split; [now destruct self | now left].
Qed.

(** C2.  A subscription whose status is not [active] is refused every
    feature kind, countable, boolean or unknown, and its row is not
    touched; the [/check-feature] handler answers [can_use = false] for
    such a row and for a caller without a subscription. *)
Theorem can_use_false_unless_active (self : UserSubscription)
    (feature_type : string) (now : datetime) :
  status self <> "active" ->
  can_use_feature self feature_type now = (false, self)
  /\ (feature_type <> "" ->
      check_feature_access (Some self) (Some feature_type) now
      = (CanUse false (Some feature_type), Some self)
      /\ check_feature_access None (Some feature_type) now
         = (CanUse false None, None)).
Proof.
  intros Hs.
  assert (H : can_use_feature self feature_type now = (false, self))
    by now apply can_use_feature_inactive, status_not_active.
  split; [exact H|]. intros Hne. unfold check_feature_access.
  destruct (String.eqb_spec feature_type ""); [contradiction|].
  now rewrite H.
Qed.

Lemma can_use_false_unless_active_witness :
  status sub_cancelled <> "active"
  /\ can_use_feature sub_cancelled "ai_feedback" march_5
     = (false, sub_cancelled).
Proof.
  assert (H : status sub_cancelled <> "active") by (vm_compute; discriminate).
  split; [exact H|].
  exact (proj1 (can_use_false_unless_active sub_cancelled "ai_feedback"
                  march_5 H)).
Defined.






(** ** The usage accountant *)

(** The handler refuses exactly when the check does, and then hands back
    the row the check left. *)
Lemma increment_usage_route_refused (self : UserSubscription)
    (feature_type : string) (now : datetime) :
  feature_type <> "" ->
  fst (can_use_feature self feature_type now) = false ->
  increment_usage_route (Some self) (Some feature_type) now
  = (JsonError 403
       "Feature usage limit reached or not available in current plan",
     Some (snd (can_use_feature self feature_type now))).
Proof.
  intros Hne Hv. unfold increment_usage_route.
  destruct (String.eqb_spec feature_type ""); [contradiction|].
  destruct (can_use_feature self feature_type now) as [v row].
  cbn [fst] in Hv. subst v. reflexivity.
Qed.

Lemma countable_not_empty (feature_type : string) :
  countable feature_type = true -> feature_type <> "".
Proof. intros H ->. discriminate. Qed.

(** The refusal at the limit, where the check resets nothing.  When
    the counter of a countable feature kind has reached the plan's
    nonzero limit, the [/increment-usage] handler answers 403 and the
    counter keeps its value, for [cv] and [business_card] always and for
    [interview] when the reset test of the check is false. *)
Theorem increment_refused_at_limit (self : UserSubscription)
    (p : SubscriptionPlan) (feature_type : string) (now : datetime) :
  plan self = Some p ->
  countable feature_type = true ->
  limit_of p feature_type <> 0 ->
  limit_of p feature_type <= counter_of self feature_type ->
  (feature_type = "interview" -> reset_due self now = false) ->
  exists row,
    increment_usage_route (Some self) (Some feature_type) now
    = (JsonError 403
         "Feature usage limit reached or not available in current plan",
       Some row)
    /\ counter_of row feature_type = counter_of self feature_type.
Proof.
  intros Hp Hc Hl Hu Hr.
  pose proof (countable_not_empty _ Hc) as Hne.
  destruct (is_active self now) eqn:Ha.
  - assert (Hk : counter_of (rolled_over self now) feature_type
                 = counter_of self feature_type).
    { apply rolled_over_counter.
      destruct (String.eqb_spec feature_type "interview"); auto. }
    assert (Hv : fst (can_use_feature self feature_type now) = false).
    { rewrite (can_use_feature_countable _ _ _ p Ha Hp Hc), Hk.
      apply orb_false_iff. split; [now apply Z.eqb_neq | now apply Z.ltb_ge]. }
    eexists. split; [now apply increment_usage_route_refused|].
    now rewrite (can_use_feature_row _ _ _ p Ha Hp).
  - exists self. split; [|reflexivity].
    rewrite increment_usage_route_refused;
      now rewrite ?(can_use_feature_inactive _ _ _ Ha).
Qed.

(** The scenario of the specification: five CVs on the basic plan. *)
Lemma increment_refused_at_limit_witness :
  max_cvs basic_plan = 5 /\ cvs_created sub_cv_limit = 5
  /\ exists row,
       increment_usage_route (Some sub_cv_limit) (Some "cv") march_5
       = (JsonError 403
            "Feature usage limit reached or not available in current plan",
          Some row)
       /\ cvs_created row = 5.
Proof.
  split; [reflexivity|]. split; [reflexivity|].
  apply (increment_refused_at_limit sub_cv_limit basic_plan "cv" march_5).
  - reflexivity.
  - reflexivity.
  - vm_compute. discriminate.
  - vm_compute. discriminate.
  - discriminate.
Defined.

(** At a month boundary the reset comes first, as designed: the three
    interviews of the free plan were used in February; the first
    request of March is not refused, and the counter goes from 3 to
    1. *)
Lemma increment_at_limit_after_rollover :
  is_active sub_stale march_5 = true
  /\ limit_of free_plan "interview" = 3
  /\ counter_of sub_stale "interview" = 3
  /\ exists row,
       increment_usage_route (Some sub_stale) (Some "interview") march_5
       = (UsageIncremented "interview" 1, Some row)
       /\ counter_of row "interview" = 1.
Proof. repeat split. eexists. split; reflexivity. Qed.

(** C1 on the code.  The free plan allows three interviews a month.
    The row was reset in March by a check made at nine, which stored
    1 March at nine, and its three interviews were used since.  On
    15 March at nine a fourth is refused, as the claim says.  On
    15 March at noon it is accepted and the counter goes from 3 to 1:
    the reset test compares the stored date with day 1 of the month at
    the time of day of the request, not with the start of the month,
    and fires again within the month. *)
Theorem increment_at_limit_same_month :
  usage_reset_date (snd (can_use_feature sub_stale "interview"
                           (at_ 2024 3 5 9 0)))
  = usage_reset_date sub_interview_limit
  /\ is_active sub_interview_limit march_15 = true
  /\ limit_of free_plan "interview" = 3
  /\ counter_of sub_interview_limit "interview" = 3
  /\ usage_reset_date sub_interview_limit = Some march_1_9h
  /\ same_month march_1_9h march_15
  /\ ltb march_1_9h (month_start march_15) = false
  /\ increment_usage_route (Some sub_interview_limit) (Some "interview")
       march_15_9h
     = (JsonError 403
          "Feature usage limit reached or not available in current plan",
        Some sub_interview_limit)
  /\ exists row,
       increment_usage_route (Some sub_interview_limit) (Some "interview")
         march_15
       = (UsageIncremented "interview" 1, Some row)
       /\ counter_of row "interview" = 1.
Proof. repeat split. eexists. split; reflexivity. Qed.

(** ** The monthly reset *)

(** C6 (as the code has it).  For an active subscription with a plan
    whose [usage_reset_date] is before the midnight that opens the
    current month, the entitlement check sets the interview counter to
    0 and [usage_reset_date] to day 1 of the current month before it
    looks at the limit, so an [interview] request is judged on a counter
    of 0; the CV and business-card counters are kept. *)
Theorem monthly_reset_applied (self : UserSubscription)
    (p : SubscriptionPlan) (feature_type : string) (now d : datetime) :
  is_active self now = true ->
  plan self = Some p ->
  usage_reset_date self = Some d ->
  time_of_day_ok now ->
  ltb d (month_start now) = true ->
  interviews_used_this_month (snd (can_use_feature self feature_type now)) = 0
  /\ usage_reset_date (snd (can_use_feature self feature_type now))
     = Some (replace_day now 1)
  /\ same_month (replace_day now 1) now
  /\ day (replace_day now 1) = 1
  /\ cvs_created (snd (can_use_feature self feature_type now))
     = cvs_created self
  /\ business_cards_created (snd (can_use_feature self feature_type now))
     = business_cards_created self
  /\ (feature_type = "interview" ->
      fst (can_use_feature self feature_type now)
      = (max_interviews_per_month p =? 0)
        || (0 <? max_interviews_per_month p)).
Proof.
  intros Ha Hp Hd Ht Hlt.
  assert (Hdue : reset_due self now = true).
  { unfold reset_due. rewrite Hd.
    now apply DateTimeFacts.ltb_month_start. }
  rewrite (can_use_feature_row _ _ _ p Ha Hp).
  unfold rolled_over at 1 2 3 4. rewrite Hdue.
  autorewrite with commit.
  repeat split.
  intros ->.
  rewrite (can_use_feature_countable self "interview" now p Ha Hp eq_refl).
  unfold rolled_over. rewrite Hdue. now autorewrite with commit.
Qed.

Lemma monthly_reset_applied_witness :
  ltb feb_10 (month_start march_5) = true
  /\ interviews_used_this_month sub_stale = 3
  /\ interviews_used_this_month
       (snd (can_use_feature sub_stale "interview" march_5)) = 0
  /\ fst (can_use_feature sub_stale "interview" march_5) = true.
Proof.
  assert (Ht : time_of_day_ok march_5) by (vm_compute; intuition discriminate).
  pose proof (monthly_reset_applied sub_stale free_plan "interview" march_5
                feb_10 eq_refl eq_refl eq_refl Ht eq_refl) as H.
  split; [reflexivity|]. split; [reflexivity|].
  split; [exact (proj1 H)|].
  exact (proj2 (proj2 (proj2 (proj2 (proj2 (proj2 H))))) eq_refl).
Defined.

(** C6 as stated fails twice.  The reset leaves the CV counter alone:
    the CV of [sub_stale] is still counted after the rollover.
    And a reset can come in the middle of a month: [sub_march] was reset
    on 5 March at nine, which stored 1 March at nine; a check on
    15 March at noon compares that with 1 March at noon and resets the
    two interviews used since. *)
Lemma reset_not_all_counters_and_mid_month :
  (ltb feb_10 (month_start march_5) = true
   /\ cvs_created sub_stale = 1
   /\ cvs_created (snd (can_use_feature sub_stale "cv" march_5)) = 1)
  /\ (usage_reset_date sub_march = Some (replace_day (at_ 2024 3 5 9 0) 1)
      /\ same_month march_1_9h march_15
      /\ interviews_used_this_month sub_march = 2
      /\ interviews_used_this_month
           (snd (can_use_feature sub_march "interview" march_15)) = 0).
Proof. repeat split. Qed.

(** ** Voucher validation *)

Lemma find_existsb {A : Type} (f : A -> bool) (l : list A) :
  match find f l with Some _ => true | None => false end = existsb f l.
Proof.
  induction l as [|x l IH]; cbn; [reflexivity|]. now destruct (f x).
Qed.

Section Validation.

Variables (v : DiscountVoucher) (uses : list VoucherUse).
Variables (user : option Z) (plan_id : option string) (now : datetime).

Lemma plan_check_agrees :
  match plan_id, applicable_plans v with
  | Some p, Some ((_ :: _) as plans) =>
      negb (String.eqb p "") && negb (str_in p plans)
  | _, _ => false
  end
  = negb (if plan_given plan_id && negb (List.length (allow_list v) =? 0)%nat
          then in_allow_list v plan_id else true).
Proof.
  unfold plan_given, truthy_str, in_allow_list, allow_list.
  destruct plan_id as [p|]; [|reflexivity].
  destruct (applicable_plans v) as [[|q l]|];
    destruct (String.eqb p ""); reflexivity.
Qed.

Lemma user_check_agrees :
  match user with
  | Some u =>
      negb (u =? 0) && single_use_per_user v
      && match existing_use uses (voucher_id v) u with
         | Some _ => true
         | None => false
         end
  | None => false
  end
  = negb (if user_given user && single_use_per_user v
          then negb (redeemed_by v uses user) else true).
Proof.
  unfold user_given, truthy_int, redeemed_by, existing_use.
  destruct user as [u|]; [|reflexivity].
  rewrite find_existsb.
  destruct (negb (u =? 0) && single_use_per_user v); cbn [andb];
    [now rewrite negb_involutive | reflexivity].
Qed.

(** [is_valid] runs the checks of the specification in their order
    and stops at the first that fails. *)
Lemma is_valid_first_failure :
  is_valid v uses user plan_id now
  = match first_failure (validation_checks v uses user plan_id now) with
    | Some reason => (false, reason)
    | None => (true, "Voucher is valid")
    end.
Proof.
  unfold is_valid. rewrite plan_check_agrees, user_check_agrees.
  unfold first_failure, validation_checks. cbn [find fst snd].
  destruct (active_flag v); cbn [negb option_map snd]; [|reflexivity].
  replace (match valid_from v with Some f => gtb f now | None => false end)
    with (negb (match valid_from v with
                | Some f => leb f now | None => true end))
    by (destruct (valid_from v);
        [now rewrite DateTimeFacts.gtb_leb | reflexivity]).
  destruct (negb _); cbn [negb option_map snd]; [reflexivity|].
  replace (match valid_until v with Some u => ltb u now | None => false end)
    with (negb (match valid_until v with
                | Some u => leb now u | None => true end))
    by (destruct (valid_until v);
        [now rewrite DateTimeFacts.ltb_leb | reflexivity]).
  destruct (negb _); cbn [negb option_map snd]; [reflexivity|].
  rewrite Z.geb_leb, (Z.ltb_antisym (max_uses v) (used_count v)).
  destruct (max_uses v <=? used_count v); cbn [negb option_map snd];
    [reflexivity|].
  destruct (negb _); cbn [negb option_map snd]; [reflexivity|].
  destruct (negb _); reflexivity.
Qed.

End Validation.

(** C9.  [validate_voucher] is the validation of the specification: the
    voucher must exist, then be active, then [now] must lie in the
    validity window, then [used_count] must be below [max_uses], then
    the plan, when one is given and the allow-list is not empty, must be
    on the list, then the user, when one is given and the voucher is
    single-use, must not have redeemed it; the first check that fails
    ends the validation with its own reason, and when none fails the
    voucher record is returned.  The seven reasons are pairwise
    different. *)
Theorem validate_voucher_order (db : Database) (voucher_code : string)
    (user : option Z) (plan_id : option string) (now : datetime) :
  validate_voucher db voucher_code user plan_id now
  = validate_spec db voucher_code user plan_id now
  /\ (forall v : DiscountVoucher,
        "Invalid voucher code"
        :: map snd (validation_checks v (voucher_uses db) user plan_id now)
        = failure_reasons)
  /\ NoDup failure_reasons.
Proof.
  split; [|split].
  - unfold validate_voucher, validate_spec.
    destruct (voucher_by_code db voucher_code) as [v|]; [|reflexivity].
    rewrite is_valid_first_failure.
    now destruct (first_failure _).
  - reflexivity.
  - unfold failure_reasons. cbn [map validation_checks snd].
    repeat (constructor; [cbn [In]; intuition discriminate|]).
    constructor.
Qed.

(** C8 (as the code has it).  The expiry test is [valid_until < now]:
    a voucher is reported expired exactly when it is active, has
    started, and its [valid_until] is strictly before [now].  At the
    instant [valid_until = now] it is therefore not expired. *)
Theorem expired_iff_strictly_past (v : DiscountVoucher)
    (uses : list VoucherUse) (user : option Z) (plan_id : option string)
    (now : datetime) :
  (is_valid v uses user plan_id now = (false, "Voucher has expired")
   <-> active_flag v = true
       /\ match valid_from v with Some f => gtb f now | None => false end
          = false
       /\ exists u, valid_until v = Some u /\ ltb u now = true)
  /\ (valid_until v = Some now ->
      is_valid v uses user plan_id now <> (false, "Voucher has expired")).
Proof.
  assert (Hiff :
    is_valid v uses user plan_id now = (false, "Voucher has expired")
    <-> active_flag v = true
        /\ match valid_from v with Some f => gtb f now | None => false end
           = false
        /\ exists u, valid_until v = Some u /\ ltb u now = true).
  { unfold is_valid.
    destruct (active_flag v); cbn [negb];
      [|split; [discriminate | intros (H & _); discriminate]].
    destruct (match valid_from v with Some f => gtb f now | None => false end);
      [split; [discriminate | intros (_ & H & _); discriminate]|].
    destruct (valid_until v) as [u|].
    - destruct (ltb u now) eqn:Hu.
      + split; [intros _|reflexivity]. repeat split. now exists u.
      + split.
        * repeat match goal with
                 | |- context [if ?b then _ else _] => destruct b
                 end; discriminate.
        * intros (_ & _ & u' & [= <-] & H). congruence.
    - split.
      + repeat match goal with
               | |- context [if ?b then _ else _] => destruct b
               end; discriminate.
      + intros (_ & _ & u' & H & _). discriminate. }
  split; [exact Hiff|].
  intros Hu H. apply Hiff in H as (_ & _ & u & Hu' & Hlt).
  rewrite Hu in Hu'. injection Hu' as <-.
  now rewrite DateTimeFacts.ltb_irrefl in Hlt.
Qed.

(** C8 as stated fails: at the instant [valid_until] the voucher passes
    validation. *)
Lemma valid_at_valid_until :
  valid_until spring_voucher = Some march_5
  /\ is_valid spring_voucher [] (Some 7) (Some "basic") march_5
     = (true, "Voucher is valid")
  /\ validate_voucher db_new_user "SPRING" (Some 7) (Some "basic") march_5
     = Success spring_voucher.
Proof. repeat split. Qed.

(** ** The discount of a voucher *)


(** ** Voucher application *)

Lemma is_valid_true (v : DiscountVoucher) (uses : list VoucherUse)
    (user : option Z) (plan_id : option string) (now : datetime) :
  fst (is_valid v uses user plan_id now) = true ->
  is_valid v uses user plan_id now = (true, "Voucher is valid").
Proof.
  rewrite is_valid_first_failure. now destruct (first_failure _).
Qed.

(** What a successful [_apply_voucher] has done: the voucher exists and
    passed validation, and the coupon returned is the one the provider
    created. *)
Lemma _apply_voucher_success (db : Database) (stripe : Stripe)
    (voucher_code : string) (user : Z) (plan_id : string) (now : datetime)
    (a : AppliedVoucher) :
  _apply_voucher db stripe voucher_code user plan_id now = Success a ->
  coupon_create stripe = inl (stripe_coupon_id a)
  /\ exists v,
       voucher_by_code db voucher_code = Some v
       /\ applied_voucher_id a = voucher_id v
       /\ is_valid v (voucher_uses db) (Some user) (Some plan_id) now
          = (true, "Voucher is valid").
Proof.
  unfold _apply_voucher.
  destruct (voucher_by_code db voucher_code) as [v|]; [|discriminate].
  pose proof (is_valid_true v (voucher_uses db) (Some user) (Some plan_id) now)
    as Hv.
  destruct (is_valid v (voucher_uses db) (Some user) (Some plan_id) now)
    as [valid msg] eqn:E.
  destruct valid; cbn [negb]; [|discriminate].
  specialize (Hv eq_refl).
  assert (Hc : forall r : string + string,
             match r with
             | inl coupon =>
                 Success {| stripe_coupon_id := coupon;
                            applied_voucher_id := voucher_id v |}
             | inr e => Failure ("Voucher processing error: " ++ e)
             end = Success a ->
             r = inl (stripe_coupon_id a) /\ applied_voucher_id a = voucher_id v).
  { intros [c|e]; [|discriminate]. intros [= <-]. now split. }
  destruct (String.eqb (discount_type v) "percentage").
  - intros H. apply Hc in H as [H1 H2]. split; [exact H1|].
    exists v. rewrite E. auto.
  - destruct (int_conversion_error _); [discriminate|].
    intros H. apply Hc in H as [H1 H2]. split; [exact H1|].
    exists v. rewrite E. auto.
Qed.

(** C7 (as the code has it).  Applying a voucher creates a coupon at
    the provider and returns its id; nothing is recorded.  Whatever
    [create_subscription] does, with or without a voucher and whether it
    succeeds or not, the vouchers (and so every [used_count]) and the
    redemption records are the same before and after: neither is ever
    written without the other, because neither is written. *)
Theorem voucher_tables_untouched (db : Database) (stripe : Stripe)
    (user : Z) (plan_id billing_cycle : string)
    (voucher_code : option string) (now : datetime) :
  vouchers (snd (create_subscription db stripe user plan_id billing_cycle
                   voucher_code now)) = vouchers db
  /\ voucher_uses (snd (create_subscription db stripe user plan_id
                          billing_cycle voucher_code now)) = voucher_uses db
  /\ forall (c : string) (a : AppliedVoucher),
       _apply_voucher db stripe c user plan_id now = Success a ->
       coupon_create stripe = inl (stripe_coupon_id a)
       /\ exists v,
            voucher_by_code db c = Some v
            /\ applied_voucher_id a = voucher_id v
            /\ is_valid v (voucher_uses db) (Some user) (Some plan_id) now
               = (true, "Voucher is valid").
Proof.
  split; [|split]; [| |intros c a; apply _apply_voucher_success];
    unfold create_subscription, _create_free_subscription;
    repeat (match goal with
            | |- context [match ?x with _ => _ end] =>
                lazymatch x with
                | context [match _ with _ => _ end] => fail
                | _ => destruct x
                end
            end; cbv beta iota zeta);
    reflexivity.
Qed.

(** C7 as stated fails: a subscription bought with a valid voucher is
    created, the coupon is issued, and there is no redemption record and
    no increment of [used_count]. *)
Lemma voucher_applied_without_record :
  _apply_voucher db_new_user stripe_ok "SPRING" 7 "basic" march_5
  = Success {| stripe_coupon_id := "voucher_1_7_1709640000";
               applied_voucher_id := 1 |}
  /\ exists created db,
       create_subscription db_new_user stripe_ok 7 "basic" "monthly"
         (Some "SPRING") march_5 = (Success created, db)
       /\ List.length (subscriptions db) = 1%nat
       /\ voucher_uses db = []
       /\ map used_count (vouchers db) = [0].
Proof. split; [reflexivity|]. do 2 eexists. repeat split. Qed.

(** ** Cancellation *)

Lemma is_active_cancelled (s : UserSubscription) (now : datetime) :
  status s = "cancelled" -> is_active s now = false.
Proof. intros H. apply status_not_active. now rewrite H. Qed.

(** Cancelling at the end of the period: the row found is marked
    cancelled with its [end_date] as it was, and from then on
    [is_active] is false at every instant. *)
Lemma cancel_keeping_end_date (db : Database) (stripe : Stripe) (user : Z)
    (now : datetime) (s : UserSubscription) :
  get_user_subscription db user = Some s ->
  truthy_str (stripe_subscription_id s) = true ->
  subscription_modify stripe = inl tt ->
  exists row,
    cancel_subscription db stripe user false now
    = (Success false,
       with_subscriptions db
         (update_first (active_of user) (fun _ => row) (subscriptions db)))
    /\ status row = "cancelled"
    /\ end_date row = end_date s
    /\ forall t, is_active row t = false.
Proof.
  intros Hs Ht Hm. unfold cancel_subscription. rewrite Hs, Ht, Hm.
  eexists. split; [reflexivity|]. autorewrite with commit.
  split; [reflexivity|]. split; [reflexivity|].
  intros t. now rewrite commit_is_active.
Qed.

(** Cancelling at once, or cancelling a subscription the provider does
    not know: the row is marked cancelled and ends now. *)
Lemma cancel_immediately (db : Database) (stripe : Stripe) (user : Z)
    (immediate : bool) (now : datetime) (s : UserSubscription) :
  get_user_subscription db user = Some s ->
  (truthy_str (stripe_subscription_id s) = true ->
   immediate = true /\ subscription_delete stripe = inl tt) ->
  exists row,
    cancel_subscription db stripe user immediate now
    = (Success immediate,
       with_subscriptions db
         (update_first (active_of user) (fun _ => row) (subscriptions db)))
    /\ status row = "cancelled"
    /\ end_date row = Some now
    /\ forall t, is_active row t = false.
Proof.
  intros Hs Ht. unfold cancel_subscription. rewrite Hs.
  destruct (truthy_str (stripe_subscription_id s)).
  - destruct (Ht eq_refl) as [-> ->].
    eexists. split; [reflexivity|]. autorewrite with commit.
    split; [reflexivity|]. split; [reflexivity|].
    intros t. now rewrite commit_is_active.
  - eexists. split; [reflexivity|]. autorewrite with commit.
    split; [reflexivity|]. split; [reflexivity|].
    intros t. now rewrite commit_is_active.
Qed.

(** C5 on the code.  An active monthly subscription is next billed on
    15 March; on 5 March it is cancelled with [immediate = false].  The
    row is marked cancelled and keeps its empty [end_date], and
    [is_active] is false already on 5 March and still on the billing
    date: access ends at the cancellation, and the user no longer has a
    current subscription. *)
Theorem cancel_at_period_end_revokes_now :
  is_active sub_paid march_5 = true
  /\ next_billing_date sub_paid = Some (plus_days march_5 10)
  /\ exists row db,
       cancel_subscription db_paid stripe_ok 7 false march_5
       = (Success false, db)
       /\ subscriptions db = [row]
       /\ status row = "cancelled"
       /\ end_date row = None
       /\ is_active row march_5 = false
       /\ is_active row march_15 = false
       /\ get_user_subscription db 7 = None.
Proof. split; [reflexivity|]. split; [reflexivity|]. do 2 eexists. repeat split. Qed.

(** * Further properties *)

(** ** More on the order of datetimes *)

Lemma gtb_leb_trans (e a b : datetime) :
  leb a b = true -> gtb e b = true -> gtb e a = true.
Proof.
  unfold leb, gtb, compare. intros H1 H2.
  repeat match type of H1 with
         | context [?x ?= ?y] =>
             destruct (Z.compare_spec x y); cbn [lex] in H1;
             try discriminate
         end;
  repeat match type of H2 with
         | context [?x ?= ?y] =>
             destruct (Z.compare_spec x y); cbn [lex] in H2;
             try discriminate; try lia
         end;
  DateTimeFacts.cases; try reflexivity; try discriminate.
Qed.

(** ** More on the entitlement check *)

Lemma can_use_feature_active (self : UserSubscription)
    (p : SubscriptionPlan) (feature_type : string) (now : datetime) :
  is_active self now = true -> plan self = Some p ->
  can_use_feature self feature_type now
  = (verdict p (rolled_over self now) feature_type, rolled_over self now).
Proof.
  intros Ha Hp. unfold can_use_feature, verdict.
  rewrite Ha, Hp. cbn [negb]. cbv zeta. rewrite reset_row.
  repeat match goal with
         | |- context [if ?b then _ else _] => destruct b
         end; reflexivity.
Qed.

Lemma rolled_over_twice (s : UserSubscription) (now : datetime) :
  rolled_over (rolled_over s now) now = rolled_over s now.
Proof.
  unfold rolled_over at 2 3. destruct (reset_due s now) eqn:H.
  - unfold rolled_over at 1. unfold reset_due.
    rewrite commit_usage_reset_date.
    cbn [usage_reset_date set_usage_reset_date].
    now rewrite DateTimeFacts.ltb_irrefl.
  - unfold rolled_over. now rewrite H.
Qed.

Lemma rolled_over_kept (s : UserSubscription) (now : datetime) :
  is_active (rolled_over s now) now = is_active s now
  /\ plan (rolled_over s now) = plan s.
Proof.
  unfold rolled_over. destruct (reset_due s now); [|now split].
  now autorewrite with commit.
Qed.

(** The three ways a check can end. *)
Lemma can_use_feature_cases (self : UserSubscription)
    (feature_type : string) (now : datetime) :
  can_use_feature self feature_type now = (false, self)
  \/ exists p,
       is_active self now = true /\ plan self = Some p
       /\ can_use_feature self feature_type now
          = (verdict p (rolled_over self now) feature_type,
             rolled_over self now).
Proof.
  destruct (is_active self now) eqn:Ha;
    [|left; now apply can_use_feature_inactive].
  destruct (plan self) as [p|] eqn:Hp;
    [|left; now apply can_use_feature_no_plan].
  right. exists p. repeat split. now apply can_use_feature_active.
Qed.

(** X1.  The entitlement check writes three columns at most: putting
    the interview counter, the reset date and [updated_at] back gives
    the row as it was, so status, plan, the other dates, provider ids
    and the CV and business-card counters are never touched; and the
    row is either unchanged or, the monthly reset being due, has an
    interview counter of 0, a reset date on day 1 of the month of [now]
    and [updated_at] at [now]. *)
Theorem can_use_feature_writes_three_columns (self : UserSubscription)
    (feature_type : string) (now : datetime) :
  set_updated_at
    (set_usage_reset_date
       (set_interviews_used_this_month
          (snd (can_use_feature self feature_type now))
          (interviews_used_this_month self))
       (usage_reset_date self))
    (updated_at self) = self
  /\ (snd (can_use_feature self feature_type now) = self
      \/ reset_due self now = true
         /\ interviews_used_this_month
              (snd (can_use_feature self feature_type now)) = 0
         /\ usage_reset_date (snd (can_use_feature self feature_type now))
            = Some (replace_day now 1)
         /\ updated_at (snd (can_use_feature self feature_type now))
            = Some now).
Proof. apply can_use_feature_frame. Qed.

(** The reset is applied once at an instant. *)
Lemma can_use_feature_repeat (self : UserSubscription)
    (first second : string) (now : datetime) :
  can_use_feature (snd (can_use_feature self first now)) second now
  = (fst (can_use_feature self second now),
     snd (can_use_feature self first now)).
Proof.
  destruct (is_active self now) eqn:Ha.
  - destruct (plan self) as [p|] eqn:Hp.
    + pose proof (rolled_over_kept self now) as [Ha' Hp'].
      rewrite (can_use_feature_active self p first now Ha Hp),
        (can_use_feature_active self p second now Ha Hp).
      cbn [fst snd].
      rewrite (can_use_feature_active _ p second now), rolled_over_twice;
        [reflexivity | now rewrite Ha' | now rewrite Hp'].
    + now rewrite !(can_use_feature_no_plan self _ now Hp).
  - now rewrite !(can_use_feature_inactive self _ now Ha).
Qed.

(** X2.  A second check at the same instant, for the same or another
    feature kind, answers what a first check for that kind would have
    answered and leaves the row as the first check left it: the monthly
    reset is applied once. *)
Theorem can_use_feature_again (self : UserSubscription)
    (first second : string) (now : datetime) :
  can_use_feature (snd (can_use_feature self first now)) second now
  = (fst (can_use_feature self second now),
     snd (can_use_feature self first now)).
Proof. apply can_use_feature_repeat. Qed.

Lemma known_feature_false (feature_type : string) :
  known_feature feature_type = false ->
  countable feature_type = false
  /\ forall p row, verdict p row feature_type = false.
Proof.
  unfold known_feature. intros H.
  apply orb_false_iff in H as [H H4]. apply orb_false_iff in H as [H H3].
  apply orb_false_iff in H as [H H2]. apply orb_false_iff in H as [Hc H1].
  split; [exact Hc|]. intros p row. unfold verdict. unfold countable in Hc.
  apply orb_false_iff in Hc as [Hc Hc3]. apply orb_false_iff in Hc as [Hc1 Hc2].
  now rewrite Hc1, Hc2, Hc3, H1, H2, H3, H4.
Qed.

(** X3.  A feature kind that is none of the seven the check knows is
    refused for every subscription, and the [/increment-usage] handler
    answers 403 for it. *)
Theorem unknown_feature_denied (self : UserSubscription)
    (feature_type : string) (now : datetime) :
  known_feature feature_type = false ->
  fst (can_use_feature self feature_type now) = false
  /\ (feature_type <> "" ->
      fst (increment_usage_route (Some self) (Some feature_type) now)
      = JsonError 403
          "Feature usage limit reached or not available in current plan").
Proof.
  intros H. apply known_feature_false in H as [_ H].
  assert (Hv : fst (can_use_feature self feature_type now) = false).
  { destruct (can_use_feature_cases self feature_type now)
      as [-> | (p & _ & _ & ->)]; cbn [fst]; auto. }
  split; [exact Hv|]. intros Hne.
  now rewrite increment_usage_route_refused.
Qed.

Lemma unknown_feature_denied_witness :
  known_feature "video_call" = false
  /\ fst (can_use_feature sub_cv_limit "video_call" march_5) = false.
Proof.
  split; [reflexivity|].
  exact (proj1 (unknown_feature_denied sub_cv_limit "video_call" march_5
                  eq_refl)).
Defined.

(** X4.  For a row as it is stored, [is_active] only goes from true to
    false as the clock advances: a row that is not active at some
    instant is not active at any later one, as long as the row is not
    written.  (A write can make it active again: a successful payment
    sets the status back to [active].) *)
Theorem is_active_lapses (self : UserSubscription) (t t' : datetime) :
  leb t t' = true ->
  is_active self t = false ->
  is_active self t' = false.
Proof.
  unfold is_active. intros Hle H.
  destruct (String.eqb (status self) "active"); [|reflexivity].
  destruct (end_date self) as [e|]; [|discriminate].
  cbn [andb] in *. destruct (gtb e t') eqn:E; [|reflexivity].
  now rewrite (gtb_leb_trans e t t' Hle E) in H.
Qed.

Lemma is_active_lapses_witness :
  leb march_5 march_15 = true
  /\ is_active (set_end_date sub_paid (Some march_1_9h)) march_15 = false.
Proof.
  split; [reflexivity|].
  apply (is_active_lapses _ march_5 march_15); reflexivity.
Defined.

(** ** More on the usage accountant *)

Lemma verdict_countable (p : SubscriptionPlan) (row : UserSubscription)
    (feature_type : string) :
  countable feature_type = true ->
  verdict p row feature_type
  = (limit_of p feature_type =? 0)
    || (counter_of row feature_type <? limit_of p feature_type).
Proof.
  unfold countable, verdict, limit_of, counter_of. intros H.
  destruct (String.eqb feature_type "interview"); [reflexivity|].
  destruct (String.eqb feature_type "cv"); [reflexivity|].
  now destruct (String.eqb feature_type "business_card").
Qed.

Lemma increment_usage_counters (row : UserSubscription)
    (feature_type : string) (now : datetime) :
  countable feature_type = true ->
  counter_of (increment_usage row feature_type now) feature_type
  = counter_of row feature_type + 1
  /\ forall f, countable f = true -> f <> feature_type ->
               counter_of (increment_usage row feature_type now) f
               = counter_of row f.
Proof.
  unfold increment_usage. cbv zeta. intros H.
  split; [|intros f Hc Hf]; rewrite commit_counter_of;
    unfold countable, counter_of in *.
  - destruct (String.eqb feature_type "interview"); [reflexivity|].
    destruct (String.eqb feature_type "cv"); [reflexivity|].
    destruct (String.eqb feature_type "business_card");
      [reflexivity | discriminate].
  - destruct (String.eqb_spec feature_type "interview") as [E1|_].
    + subst feature_type.
      destruct (String.eqb_spec f "interview"); [contradiction|reflexivity].
    + destruct (String.eqb_spec feature_type "cv") as [E2|_].
      * subst feature_type.
        destruct (String.eqb f "interview"); [reflexivity|].
        destruct (String.eqb_spec f "cv"); [contradiction|reflexivity].
      * destruct (String.eqb_spec feature_type "business_card") as [E3|_];
          [|discriminate].
        subst feature_type.
        destruct (String.eqb f "interview"); [reflexivity|].
        destruct (String.eqb f "cv"); [reflexivity|].
        destruct (String.eqb_spec f "business_card"); [contradiction|].
        cbn in Hc. discriminate.
Qed.

Lemma increment_usage_route_accepted (self : UserSubscription)
    (feature_type : string) (now : datetime) :
  feature_type <> "" ->
  fst (can_use_feature self feature_type now) = true ->
  increment_usage_route (Some self) (Some feature_type) now
  = (UsageIncremented feature_type
       (new_usage_of
          (increment_usage (snd (can_use_feature self feature_type now))
             feature_type now) feature_type),
     Some (increment_usage (snd (can_use_feature self feature_type now))
             feature_type now)).
Proof.
  intros Hne Hv. unfold increment_usage_route.
  destruct (String.eqb_spec feature_type ""); [contradiction|].
  destruct (can_use_feature self feature_type now) as [v row].
  cbn [fst] in Hv. subst v. reflexivity.
Qed.

Lemma new_usage_of_countable (row : UserSubscription)
    (feature_type : string) :
  countable feature_type = true ->
  new_usage_of row feature_type = counter_of row feature_type.
Proof.
  unfold countable, new_usage_of, counter_of. intros H.
  destruct (String.eqb feature_type "interview"); [reflexivity|].
  destruct (String.eqb feature_type "cv"); [reflexivity|].
  now destruct (String.eqb feature_type "business_card").
Qed.

(** X5.  When an active subscription has room for a countable feature
    kind (the limit is 0, or the counter after the monthly reset is
    below it), the [/increment-usage] handler answers 200, adds exactly
    1 to the counter of that kind, leaves the two other counters as the
    reset left them, and reports the new value of the counter. *)
Theorem increment_accepted (self : UserSubscription) (p : SubscriptionPlan)
    (feature_type : string) (now : datetime) :
  is_active self now = true ->
  plan self = Some p ->
  countable feature_type = true ->
  limit_of p feature_type = 0
  \/ counter_of (rolled_over self now) feature_type
     < limit_of p feature_type ->
  exists row,
    increment_usage_route (Some self) (Some feature_type) now
    = (UsageIncremented feature_type
         (counter_of (rolled_over self now) feature_type + 1),
       Some row)
    /\ counter_of row feature_type
       = counter_of (rolled_over self now) feature_type + 1
    /\ forall f, countable f = true -> f <> feature_type ->
                 counter_of row f = counter_of (rolled_over self now) f.
Proof.
  intros Ha Hp Hc Hroom.
  pose proof (countable_not_empty _ Hc) as Hne.
  pose proof (can_use_feature_active self p feature_type now Ha Hp) as E.
  assert (Hv : fst (can_use_feature self feature_type now) = true).
  { rewrite E. cbn [fst]. rewrite (verdict_countable _ _ _ Hc).
    apply orb_true_iff.
    destruct Hroom as [H|H]; [left; now apply Z.eqb_eq
                             | right; now apply Z.ltb_lt]. }
  pose proof (increment_usage_counters (rolled_over self now) _ now Hc)
    as [H1 H2].
  exists (increment_usage (rolled_over self now) feature_type now).
  rewrite (increment_usage_route_accepted _ _ _ Hne Hv), E. cbn [snd].
  rewrite (new_usage_of_countable _ _ Hc), H1. auto.
Qed.

Lemma increment_accepted_witness :
  counter_of sub_stale "interview" = 3
  /\ exists row,
       increment_usage_route (Some sub_stale) (Some "interview") march_5
       = (UsageIncremented "interview" 1, Some row)
       /\ counter_of row "interview" = 1
       /\ forall f, countable f = true -> f <> "interview" ->
                    counter_of row f
                    = counter_of (rolled_over sub_stale march_5) f.
Proof.
  split; [reflexivity|].
  apply (increment_accepted sub_stale free_plan "interview" march_5);
    try reflexivity.
  right. reflexivity.
Defined.

Lemma within_limits_rolled_over (p : SubscriptionPlan)
    (self : UserSubscription) (now : datetime) :
  within_limits p self -> within_limits p (rolled_over self now).
Proof.
  intros H f Hc Hl. specialize (H f Hc Hl).
  unfold rolled_over. destruct (reset_due self now); [|exact H].
  rewrite commit_counter_of. unfold counter_of in *. cbn.
  destruct (String.eqb f "interview"); [lia | exact H].
Qed.

(** X6.  The [/increment-usage] handler keeps every counter within its
    positive limit: if no counter of the row is above the positive
    limit of its kind before a request, none is after it, whatever
    feature kind the request names and whenever it comes. *)
Theorem within_limits_kept (self : UserSubscription) (p : SubscriptionPlan)
    (feature_type : option string) (now : datetime) (row : UserSubscription) :
  plan self = Some p ->
  within_limits p self ->
  snd (increment_usage_route (Some self) feature_type now) = Some row ->
  within_limits p row.
Proof.
  intros Hp Hw. unfold increment_usage_route.
  destruct feature_type as [ft|]; [|intros [= <-]; exact Hw].
  destruct (String.eqb_spec ft ""); [intros [= <-]; exact Hw|].
  destruct (is_active self now) eqn:Ha.
  - rewrite (can_use_feature_active self p ft now Ha Hp).
    pose proof (within_limits_rolled_over p self now Hw) as Hr.
    destruct (verdict p (rolled_over self now) ft) eqn:Hv; cbn [negb snd];
      intros [= <-]; [|exact Hr].
    destruct (countable ft) eqn:Hc.
    + pose proof (increment_usage_counters (rolled_over self now) ft now Hc)
        as [H1 H2].
      intros f Hf Hl. destruct (String.eqb_spec f ft) as [->|Hne].
      * rewrite H1. rewrite (verdict_countable _ _ _ Hc) in Hv.
        apply orb_true_iff in Hv as [Hv|Hv];
          [apply Z.eqb_eq in Hv | apply Z.ltb_lt in Hv]; lia.
      * rewrite (H2 f Hf Hne). now apply Hr.
    + unfold countable in Hc.
      apply orb_false_iff in Hc as [Hc H3].
      apply orb_false_iff in Hc as [H1 H2].
      unfold increment_usage. rewrite H1, H2, H3. cbv zeta.
      now rewrite commit_unchanged.
  - rewrite (can_use_feature_inactive self ft now Ha). cbn [negb snd].
    intros [= <-]. exact Hw.
Qed.

Lemma within_limits_kept_witness :
  within_limits basic_plan sub_cv_limit
  /\ within_limits basic_plan
       (increment_usage (rolled_over sub_cv_limit march_5) "interview"
          march_5).
Proof.
  assert (H : within_limits basic_plan sub_cv_limit).
  { intros f Hc _. unfold countable in Hc. unfold counter_of, limit_of.
    destruct (String.eqb f "interview"); [cbn; lia|].
    destruct (String.eqb f "cv"); cbn; lia. }
  split; [exact H|].
  exact (within_limits_kept sub_cv_limit basic_plan (Some "interview")
           march_5 _ eq_refl H eq_refl).
Defined.

(** X7.  [/check-feature] and [/increment-usage] agree: on the row a
    check left, an increment of the same kind at the same instant is
    accepted exactly when the check answered [can_use = true], and a
    refused increment leaves that row as it is. *)
Theorem check_then_increment (self : UserSubscription)
    (feature_type : string) (now : datetime) :
  feature_type <> "" ->
  check_feature_access (Some self) (Some feature_type) now
  = (CanUse (fst (can_use_feature self feature_type now))
       (Some feature_type),
     Some (snd (can_use_feature self feature_type now)))
  /\ increment_usage_route
       (Some (snd (can_use_feature self feature_type now)))
       (Some feature_type) now
     = if fst (can_use_feature self feature_type now)
       then (UsageIncremented feature_type
               (new_usage_of
                  (increment_usage
                     (snd (can_use_feature self feature_type now))
                     feature_type now) feature_type),
             Some (increment_usage
                     (snd (can_use_feature self feature_type now))
                     feature_type now))
       else (JsonError 403
               "Feature usage limit reached or not available in current plan",
             Some (snd (can_use_feature self feature_type now))).
Proof.
  intros Hne. split.
  - unfold check_feature_access.
    destruct (String.eqb_spec feature_type ""); [contradiction|].
    now destruct (can_use_feature self feature_type now).
  - pose proof (can_use_feature_repeat self feature_type feature_type now)
      as H.
    destruct (fst (can_use_feature self feature_type now)) eqn:Hv.
    + rewrite increment_usage_route_accepted; rewrite ?H; auto.
    + rewrite increment_usage_route_refused; rewrite ?H; auto.
Qed.

Lemma check_then_increment_witness :
  fst (check_feature_access (Some sub_cv_limit) (Some "cv") march_5)
  = CanUse false (Some "cv")
  /\ fst (increment_usage_route
            (Some (snd (can_use_feature sub_cv_limit "cv" march_5)))
            (Some "cv") march_5)
     = JsonError 403
         "Feature usage limit reached or not available in current plan".
Proof.
  assert (Hne : "cv" <> "") by discriminate.
  pose proof (check_then_increment sub_cv_limit "cv" march_5 Hne) as [H1 H2].
  split; [now rewrite H1 | now rewrite H2].
Defined.

(** X8.  [/usage] answers 404 without a subscription.  Otherwise it
    reports the counters and the reset date as stored when the request
    came, the limits of the plan (0 without a plan) and the four feature
    flags as [can_use_feature] gives them; but its feature checks write:
    the row it leaves is the one a check leaves, so when the monthly
    reset is due the answer still shows the old interview counter while
    the stored one is 0. *)
Theorem usage_stats_read_before_reset (self : UserSubscription)
    (now : datetime) :
  get_usage_stats None now = (None, None)
  /\ get_usage_stats (Some self) now
     = (Some {| current_plan := plan self;
                stat_interviews_used_this_month :=
                  interviews_used_this_month self;
                stat_cvs_created := cvs_created self;
                stat_business_cards_created := business_cards_created self;
                stat_usage_reset_date := usage_reset_date self;
                limit_interviews_per_month :=
                  match plan self with
                  | Some p => max_interviews_per_month p | None => 0 end;
                limit_cvs :=
                  match plan self with Some p => max_cvs p | None => 0 end;
                limit_business_cards :=
                  match plan self with
                  | Some p => max_business_cards p | None => 0 end;
                feature_ai_feedback :=
                  fst (can_use_feature self "ai_feedback" now);
                feature_advanced_analytics :=
                  fst (can_use_feature self "advanced_analytics" now);
                feature_priority_support :=
                  fst (can_use_feature self "priority_support" now);
                feature_custom_branding :=
                  fst (can_use_feature self "custom_branding" now) |},
        Some (snd (can_use_feature self "ai_feedback" now)))
  /\ (forall p, is_active self now = true -> plan self = Some p ->
                reset_due self now = true ->
                interviews_used_this_month
                  (snd (can_use_feature self "ai_feedback" now)) = 0).
Proof.
  split; [reflexivity|]. split.
  - unfold get_usage_stats.
    pose proof (can_use_feature_repeat self "ai_feedback"
                  "advanced_analytics" now) as H2.
    pose proof (can_use_feature_repeat self "ai_feedback"
                  "priority_support" now) as H3.
    pose proof (can_use_feature_repeat self "ai_feedback"
                  "custom_branding" now) as H4.
    destruct (can_use_feature self "ai_feedback" now) as [f1 s1].
    cbn [snd fst] in *. rewrite H2, H3, H4. reflexivity.
  - intros p Ha Hp Hd.
    rewrite (can_use_feature_active self p _ now Ha Hp). cbn [snd].
    unfold rolled_over. rewrite Hd. now autorewrite with commit.
Qed.

(** ** Lists as tables *)

Section Tables.

Context {A : Type}.
Variables (p : A -> bool) (f : A -> A).

Lemma find_append (l l' : list A) :
  find p (l ++ l') = match find p l with
                     | Some x => Some x
                     | None => find p l'
                     end.
Proof. induction l as [|x l IH]; cbn; [reflexivity|]. now destruct (p x). Qed.

Lemma update_first_none (l : list A) :
  find p l = None -> update_first p f l = l.
Proof.
  induction l as [|x l IH]; cbn; [reflexivity|].
  destruct (p x); [discriminate|]. intros H. now rewrite IH.
Qed.

Lemma update_first_length (l : list A) :
  List.length (update_first p f l) = List.length l.
Proof.
  induction l as [|x l IH]; cbn; [reflexivity|].
  destruct (p x); cbn; [reflexivity | now rewrite IH].
Qed.

(** A column the update keeps is the same in every row afterwards. *)
Lemma update_first_map {B : Type} (key : A -> B) (l : list A) :
  (forall x, p x = true -> key (f x) = key x) ->
  map key (update_first p f l) = map key l.
Proof.
  intros H. induction l as [|x l IH]; cbn; [reflexivity|].
  destruct (p x) eqn:E; cbn; [now rewrite H | now rewrite IH].
Qed.

(** Rows a filter [q] selects are untouched when the row updated is not
    among them before or after. *)
Lemma update_first_filter_other (q : A -> bool) (l : list A) :
  (forall x, p x = true -> q x = false /\ q (f x) = false) ->
  filter q (update_first p f l) = filter q l.
Proof.
  intros H. induction l as [|x l IH]; cbn; [reflexivity|].
  destruct (p x) eqn:E; cbn.
  - destruct (H x E) as [-> ->]. reflexivity.
  - now rewrite IH.
Qed.

(** When the update takes the row out of the set [p] selects, that set
    loses exactly its first row. *)
Lemma update_first_filter_self (l : list A) :
  (forall x, p x = true -> p (f x) = false) ->
  filter p (update_first p f l) = tl (filter p l).
Proof.
  intros H. induction l as [|x l IH]; cbn; [reflexivity|].
  destruct (p x) eqn:E; cbn.
  - now rewrite (H x E).
  - now rewrite E, IH.
Qed.

Lemma find_filter (l : list A) : find p l = hd_error (filter p l).
Proof.
  induction l as [|x l IH]; cbn; [reflexivity|]. now destruct (p x).
Qed.

End Tables.

Lemma max_id_bound (ids : list Z) (x : Z) :
  In x ids -> x <= fold_right Z.max 0 ids.
Proof.
  induction ids as [|y ids IH]; cbn; [contradiction|].
  intros [->|H]; [lia | specialize (IH H); lia].
Qed.

Lemma next_subscription_id_fresh (db : Database) :
  ~ In (next_subscription_id db) (map sub_id (subscriptions db)).
Proof.
  unfold next_subscription_id. intros H. apply max_id_bound in H. lia.
Qed.

(** ** More on subscribing *)

Ltac innermost_cases :=
  repeat (match goal with
          | |- context [match ?x with _ => _ end] =>
              lazymatch x with
              | context [match _ with _ => _ end] => fail
              | _ => destruct x eqn:?
              end
          end; cbv beta iota zeta).

Lemma NoDup_snoc {A : Type} (l : list A) (x : A) :
  NoDup l -> ~ In x l -> NoDup (l ++ [x]).
Proof.
  induction 1 as [|y l Hy Hl IH]; cbn; intros Hx.
  - constructor; [intros []|constructor].
  - constructor.
    + rewrite in_app_iff. cbn. intuition congruence.
    + apply IH. intuition.
Qed.

Lemma cancel_keeps_key (user : Z) (now : datetime) :
  forall x, active_of user x = true ->
  sub_id (commit x (set_cancelled_at (set_status x "cancelled") (Some now))
            now)
  = sub_id x.
Proof. intros x _. now rewrite commit_sub_id. Qed.

(** A failure leaves the subscriptions as they were, unless the
    provider created the subscription and answered without a payment
    intent: the pending row is then stored already. *)
Lemma create_subscription_failure_rows (db : Database) (stripe : Stripe)
    (user : Z) (wanted cycle : string) (voucher_code : option string)
    (now : datetime) (e : string) :
  fst (create_subscription db stripe user wanted cycle voucher_code now)
  = Failure e ->
  subscriptions (snd (create_subscription db stripe user wanted cycle
                        voucher_code now)) = subscriptions db
  \/ exists ss row,
       subscription_create stripe = inl ss
       /\ match latest_invoice ss with
          | None =>
              e = "'NoneType' object has no attribute 'payment_intent'"
          | Some invoice =>
              payment_intent invoice = None
              /\ e = "'NoneType' object has no attribute 'client_secret'"
          end
       /\ subscriptions (snd (create_subscription db stripe user wanted
                                cycle voucher_code now))
          = (subscriptions db ++ [row])%list
       /\ user_id row = user
       /\ status row = "pending"
       /\ stripe_subscription_id row = Some (stripe_id ss).
Proof.
  unfold create_subscription, _create_free_subscription.
  innermost_cases;
    cbn [fst snd subscriptions with_subscriptions with_users];
    intros H; try discriminate; try (left; reflexivity);
    right; injection H as <-; do 2 eexists;
    (split; [reflexivity|]);
    match goal with
    | E : latest_invoice _ = _ |- _ => rewrite E
    end;
    repeat split; try reflexivity; assumption.
Qed.

(** X9.  [create_subscription] never changes the plans, never adds or
    removes a user and never changes a user's id or e-mail.  When it
    fails the subscriptions are as they were, with one exception: the
    provider created the subscription and answered without a payment
    intent.  The row is committed before the answer is read, so the
    failure, which carries the message of the [AttributeError], leaves
    one pending row behind. *)
Theorem create_subscription_failure_frame (db : Database) (stripe : Stripe)
    (user : Z) (wanted cycle : string)
    (voucher_code : option string) (now : datetime) :
  plans (snd (create_subscription db stripe user wanted cycle
                voucher_code now)) = plans db
  /\ map uid (users (snd (create_subscription db stripe user wanted
                            cycle voucher_code now)))
     = map uid (users db)
  /\ map email (users (snd (create_subscription db stripe user wanted
                              cycle voucher_code now)))
     = map email (users db)
  /\ forall e,
       fst (create_subscription db stripe user wanted cycle
              voucher_code now) = Failure e ->
       subscriptions (snd (create_subscription db stripe user wanted
                             cycle voucher_code now))
       = subscriptions db
       \/ exists ss row,
            subscription_create stripe = inl ss
            /\ match latest_invoice ss with
               | None =>
                   e = "'NoneType' object has no attribute 'payment_intent'"
               | Some invoice =>
                   payment_intent invoice = None
                   /\ e = "'NoneType' object has no attribute 'client_secret'"
               end
            /\ subscriptions (snd (create_subscription db stripe user wanted
                                     cycle voucher_code now))
               = (subscriptions db ++ [row])%list
            /\ user_id row = user
            /\ status row = "pending"
            /\ stripe_subscription_id row = Some (stripe_id ss).
Proof.
  split; [|split; [|split]];
    [| | |intros e; apply create_subscription_failure_rows];
    unfold create_subscription, _create_free_subscription;
    innermost_cases;
    cbn [fst snd plans users with_subscriptions with_users];
    try reflexivity; now apply update_first_map.
Qed.

Lemma get_user_subscription_snoc (db : Database)
    (l : list UserSubscription) (row : UserSubscription) (u : Z) :
  status row <> "active" ->
  get_user_subscription (with_subscriptions db (l ++ [row])) u
  = find (active_of u) l.
Proof.
  intros H. unfold get_user_subscription. cbn [subscriptions with_subscriptions].
  rewrite find_append. destruct (find (active_of u) l); [reflexivity|].
  cbn. unfold active_of.
  destruct (String.eqb_spec (status row) "active"); [contradiction|].
  now rewrite andb_false_r.
Qed.

(** X10.  A successful [create_subscription] on a plan with a price
    appends exactly one row and changes no other: the new row has a key
    no row had, belongs to the user and the plan, is [pending] with all
    counters at 0, and grants nothing (every feature check on it is
    refused); every user's current subscription is who it was. *)
Theorem create_subscription_pending (db db' : Database) (stripe : Stripe)
    (user : Z) (plan_id billing_cycle : string)
    (voucher_code : option string) (now : datetime)
    (p : SubscriptionPlan) (created : CreatedSubscription) :
  plan_by_id db plan_id = Some p ->
  (price_monthly p =? 0)%float = false ->
  create_subscription db stripe user plan_id billing_cycle voucher_code now
  = (Success created, db') ->
  exists row,
    subscriptions db' = (subscriptions db ++ [row])%list
    /\ sub_id row = subscription_id created
    /\ ~ In (sub_id row) (map sub_id (subscriptions db))
    /\ user_id row = user
    /\ plan row = Some p
    /\ status row = "pending"
    /\ interviews_used_this_month row = 0
    /\ cvs_created row = 0
    /\ business_cards_created row = 0
    /\ (forall feature_type t,
          can_use_feature row feature_type t = (false, row))
    /\ (forall u, get_user_subscription db' u = get_user_subscription db u).
Proof.
  intros Hp Hprice. unfold create_subscription. rewrite Hp, Hprice.
  innermost_cases; try discriminate; intros [= <- <-];
    (eexists; split; [reflexivity|]);
    cbn [sub_id user_id plan status new_subscription
         interviews_used_this_month cvs_created business_cards_created
         subscription_id];
    (repeat split;
     try first
       [ exact (next_subscription_id_fresh db)
       | exact Hp
       | intros ft t; now apply can_use_feature_inactive
       | intros u0; rewrite get_user_subscription_snoc;
         [reflexivity | discriminate] ]).
Qed.

Lemma create_subscription_pending_witness :
  (price_monthly basic_plan =? 0)%float = false
  /\ exists row,
       subscriptions
         (snd (create_subscription db_new_user stripe_ok 7 "basic" "monthly"
                 (Some "SPRING") march_5)) = [row]
       /\ status row = "pending"
       /\ forall feature_type t,
            can_use_feature row feature_type t = (false, row).
Proof.
  split; [reflexivity|].
  destruct (create_subscription_pending db_new_user
              (snd (create_subscription db_new_user stripe_ok 7 "basic"
                      "monthly" (Some "SPRING") march_5))
              stripe_ok 7 "basic" "monthly" (Some "SPRING") march_5
              basic_plan
              {| subscription_id := 1;
                 created_stripe_subscription_id := Some "sub_1";
                 created_client_secret := Some "secret";
                 created_payment_intent_id := Some "pi_1" |}
              eq_refl eq_refl eq_refl)
    as (row & H1 & _ & _ & _ & _ & H2 & _ & _ & _ & H3 & _).
  exists row. auto.
Defined.

Lemma active_of_cancelled (user u : Z) (now : datetime)
    (x : UserSubscription) :
  active_of u
    (commit x (set_cancelled_at (set_status x "cancelled") (Some now)) now)
  = false.
Proof.
  rewrite commit_active_of. unfold active_of. cbn. apply andb_false_r.
Qed.

Lemma active_of_other (user u : Z) (x : UserSubscription) :
  u <> user -> active_of user x = true -> active_of u x = false.
Proof.
  unfold active_of. intros Hne H. apply andb_true_iff in H as [H _].
  apply Z.eqb_eq in H. rewrite H.
  destruct (Z.eqb_spec user u); [congruence|reflexivity].
Qed.

(** X12.  For a known user with at most one active row, subscribing to
    a plan whose monthly price is 0 succeeds, whatever billing cycle and
    voucher are asked for: the row created is active at every instant,
    monthly, on the plan asked for; it is afterwards the user's only
    active row (the earlier one, if any, is no longer active) and the
    current subscription; the active rows of every other user are as
    they were. *)
Theorem free_subscription_replaces (db : Database) (stripe : Stripe)
    (user : Z) (wanted cycle : string)
    (voucher_code : option string) (now : datetime)
    (u : User) (p : SubscriptionPlan) :
  find (fun u => uid u =? user) (users db) = Some u ->
  plan_by_id db wanted = Some p ->
  (price_monthly p =? 0)%float = true ->
  (List.length (active_rows db user) <= 1)%nat ->
  exists created row db',
    create_subscription db stripe user wanted cycle voucher_code now
    = (Success created, db')
    /\ sub_id row = subscription_id created
    /\ plan row = Some p
    /\ billing_cycle row = "monthly"
    /\ (forall t, is_active row t = true)
    /\ active_rows db' user = [row]
    /\ get_user_subscription db' user = Some row
    /\ (forall u', u' <> user -> active_rows db' u' = active_rows db u').
Proof.
  intros Hu Hp Hprice Hone.
  unfold create_subscription. rewrite Hu, Hp, Hprice.
  unfold _create_free_subscription.
  do 3 eexists. split; [reflexivity|].
  assert (Hrows :
    active_rows
      (with_subscriptions db
         (update_first (active_of user)
            (fun existing =>
                  commit existing
                    (set_cancelled_at (set_status existing "cancelled")
                       (Some now))
                    now)
               (subscriptions db)
             ++ [new_subscription db user wanted "active" "monthly" None None
                   None now])) user
    = [new_subscription db user wanted "active" "monthly" None None None
         now]).
  { unfold active_rows in *. cbn [subscriptions with_subscriptions].
    rewrite filter_app, update_first_filter_self
      by (intros x _; apply (active_of_cancelled user)).
    destruct (filter (active_of user) (subscriptions db)) as [|x [|y l]];
      cbn in Hone; try lia;
      cbn; unfold active_of; cbn; now rewrite Z.eqb_refl. }
  split; [reflexivity|]. split; [exact Hp|]. split; [reflexivity|].
  split; [reflexivity|]. split; [exact Hrows|]. split.
  - unfold get_user_subscription. rewrite find_filter.
    unfold active_rows in Hrows. now rewrite Hrows.
  - intros u' Hne. unfold active_rows. cbn [subscriptions with_subscriptions].
    rewrite filter_app, update_first_filter_other.
    + assert (E : active_of u'
                    (new_subscription db user wanted "active" "monthly" None
                       None None now) = false).
      { unfold active_of. cbn.
        destruct (Z.eqb_spec user u'); [congruence|reflexivity]. }
      cbn [filter]. rewrite E. apply app_nil_r.
    + intros x Hx. split; [now apply (active_of_other user)|].
      apply (active_of_cancelled user).
Qed.

Lemma free_subscription_replaces_witness :
  (List.length (active_rows db_paid 7) <= 1)%nat
  /\ exists created row db',
       create_subscription db_paid stripe_ok 7 "free" "yearly"
         (Some "SPRING") march_5 = (Success created, db')
       /\ billing_cycle row = "monthly"
       /\ get_user_subscription db' 7 = Some row
       /\ plan row = Some free_plan.
Proof.
  assert (H : (List.length (active_rows db_paid 7) <= 1)%nat)
    by (vm_compute; lia).
  split; [exact H|].
  destruct (free_subscription_replaces db_paid stripe_ok 7 "free" "yearly"
              (Some "SPRING") march_5 _ free_plan eq_refl eq_refl eq_refl H)
    as (created & row & db' & H1 & _ & H2 & H3 & _ & _ & H4 & _).
  exists created, row, db'. auto.
Defined.

(** ** More on cancelling *)

Lemma update_first_in {A : Type} (p : A -> bool) (f : A -> A) (l : list A)
    (x : A) :
  find p l = Some x -> In (f x) (update_first p f l).
Proof.
  induction l as [|y l IH]; cbn; [discriminate|].
  destruct (p y); [intros [= ->]; now left | intros H; right; auto].
Qed.

(** X13.  A cancellation fails in two ways only, and a failed
    cancellation leaves the database exactly as it was: either the user
    has no row whose status is [active], or the payment provider refused
    the call and its message is passed on. *)
Theorem cancel_subscription_failure (db : Database) (stripe : Stripe)
    (user : Z) (immediate : bool) (now : datetime) (e : string) :
  fst (cancel_subscription db stripe user immediate now) = Failure e ->
  snd (cancel_subscription db stripe user immediate now) = db
  /\ (get_user_subscription db user = None
      /\ e = "No active subscription found"
      \/ exists m,
           e = "Payment processing error: " ++ m
           /\ (if immediate then subscription_delete stripe
               else subscription_modify stripe) = inr m).
Proof.
  unfold cancel_subscription.
  destruct (get_user_subscription db user) as [s|];
    [|intros [= <-]; split; [reflexivity | now left]].
  destruct (truthy_str (stripe_subscription_id s)); [|discriminate].
  destruct immediate.
  - destruct (subscription_delete stripe) as [[]|m]; [discriminate|].
    intros [= <-]. split; [reflexivity|]. right. now exists m.
  - destruct (subscription_modify stripe) as [[]|m]; [discriminate|].
    intros [= <-]. split; [reflexivity|]. right. now exists m.
Qed.

Lemma cancel_subscription_failure_witness :
  fst (cancel_subscription db_new_user stripe_ok 7 true march_5)
  = Failure "No active subscription found"
  /\ snd (cancel_subscription db_new_user stripe_ok 7 true march_5)
     = db_new_user.
Proof.
  split; [reflexivity|].
  exact (proj1 (cancel_subscription_failure db_new_user stripe_ok 7 true
                  march_5 _ eq_refl)).
Defined.

(** X14.  A successful cancellation cancels exactly one subscription:
    the user's first active row leaves the active rows, marked
    [cancelled] and stamped with the time of the call; the other active
    rows of the user and all active rows of every other user stay; no
    row is added or removed and no key changes; users, plans and
    vouchers are not touched. *)
Theorem cancel_subscription_cancels_one (db : Database) (stripe : Stripe)
    (user : Z) (immediate : bool) (now : datetime) (answer : bool) :
  fst (cancel_subscription db stripe user immediate now) = Success answer ->
  answer = immediate
  /\ active_rows (snd (cancel_subscription db stripe user immediate now))
       user = tl (active_rows db user)
  /\ (forall u', u' <> user ->
        active_rows (snd (cancel_subscription db stripe user immediate now))
          u' = active_rows db u')
  /\ map sub_id (subscriptions
                   (snd (cancel_subscription db stripe user immediate now)))
     = map sub_id (subscriptions db)
  /\ (exists s row,
        get_user_subscription db user = Some s
        /\ In row (subscriptions
                     (snd (cancel_subscription db stripe user immediate now)))
        /\ sub_id row = sub_id s
        /\ status row = "cancelled"
        /\ cancelled_at row = Some now
        /\ forall t, is_active row t = false)
  /\ users (snd (cancel_subscription db stripe user immediate now))
     = users db
  /\ plans (snd (cancel_subscription db stripe user immediate now))
     = plans db
  /\ vouchers (snd (cancel_subscription db stripe user immediate now))
     = vouchers db.
Proof.
  unfold cancel_subscription.
  destruct (get_user_subscription db user) as [s|] eqn:Hs; [|discriminate].
  assert (Hgen : forall row,
    user_id row = user_id s -> sub_id row = sub_id s ->
    status row = "cancelled" -> cancelled_at row = Some now ->
    let db' :=
      with_subscriptions db
        (update_first (active_of user) (fun _ => row) (subscriptions db)) in
    active_rows db' user = tl (active_rows db user)
    /\ (forall u', u' <> user -> active_rows db' u' = active_rows db u')
    /\ map sub_id (subscriptions db') = map sub_id (subscriptions db)
    /\ (exists s0 row0,
          Some s = Some s0 /\ In row0 (subscriptions db')
          /\ sub_id row0 = sub_id s0 /\ status row0 = "cancelled"
          /\ cancelled_at row0 = Some now
          /\ forall t, is_active row0 t = false)
    /\ users db' = users db /\ plans db' = plans db
    /\ vouchers db' = vouchers db).
  { intros row Hu Hk Hst Hc. cbn zeta.
    assert (Hoff : forall u, active_of u row = false).
    { intros u. unfold active_of. rewrite Hst. apply andb_false_r. }
    unfold active_rows. cbn [subscriptions with_subscriptions users plans
                             vouchers].
    split; [apply update_first_filter_self; intros; apply Hoff|].
    split.
    { intros u' Hne. apply update_first_filter_other.
      intros x Hx. split; [now apply (active_of_other user) | apply Hoff]. }
    split.
    { clear Hoff. unfold get_user_subscription in Hs. revert Hs.
      induction (subscriptions db) as [|x l IH]; cbn; [reflexivity|].
      destruct (active_of user x); cbn.
      - intros [= ->]. now rewrite Hk.
      - intros H. now rewrite IH. }
    split; [|auto].
    exists s, row. split; [reflexivity|]. split.
    { apply (update_first_in _ (fun _ => row) _ s). exact Hs. }
    repeat split; auto. intros t. now apply is_active_cancelled. }
  destruct (truthy_str (stripe_subscription_id s)).
  - destruct immediate.
    + destruct (subscription_delete stripe) as [[]|m]; [|discriminate].
      intros [= <-]. split; [reflexivity|].
      apply Hgen; now autorewrite with commit.
    + destruct (subscription_modify stripe) as [[]|m]; [|discriminate].
      intros [= <-]. split; [reflexivity|].
      apply Hgen; now autorewrite with commit.
  - intros [= <-]. split; [reflexivity|].
      apply Hgen; now autorewrite with commit.
Qed.

Lemma cancel_subscription_cancels_one_witness :
  fst (cancel_subscription db_paid stripe_ok 7 true march_5) = Success true
  /\ active_rows (snd (cancel_subscription db_paid stripe_ok 7 true march_5))
       7 = [].
Proof.
  split; [reflexivity|].
  exact (proj1 (proj2 (cancel_subscription_cancels_one db_paid stripe_ok 7
                         true march_5 true eq_refl))).
Defined.

(** ** The provider's events *)

Lemma update_first_found {A : Type} (p : A -> bool) (g : A -> A)
    (l : list A) (s : A) :
  find p l = Some s ->
  update_first p (fun _ => g s) l = update_first p g l.
Proof.
  induction l as [|x l IH]; cbn; [reflexivity|].
  destruct (p x); [now intros [= ->] | intros H; now rewrite IH].
Qed.

(** The row a successful payment leaves. *)
Lemma _handle_payment_succeeded_known (st : Store) (invoice : StripeObject)
    (now : datetime) (sid : string) (s : UserSubscription) :
  obj_subscription invoice = Some sid -> sid <> "" ->
  find (has_stripe_id sid) (subscriptions (base st)) = Some s ->
  _handle_payment_succeeded st invoice now
  = (Success "Payment processed",
     {| base :=
          with_subscriptions (base st)
            (update_first (has_stripe_id sid)
               (fun x =>
                 commit x
                   (set_next_billing_date (set_status x "active")
                      (Some (if String.eqb (billing_cycle x) "monthly"
                             then plus_days now 30 else plus_days now 365)))
                   now)
              (subscriptions (base st)));
        payment_transactions :=
          (payment_transactions st
           ++ [ {| tx_user_id := user_id s;
                   tx_subscription_id := Some (sub_id s);
                   transaction_type := "subscription";
                   tx_status := "completed";
                   amount := cents_to_units (amount_paid invoice);
                   tx_currency := upper (obj_currency invoice);
                   stripe_invoice_id := Some (obj_id invoice);
                   description :=
                     "Subscription payment for " ++ plan_id s |} ])%list |}).
Proof.
  intros Hsid Hne Hs. unfold _handle_payment_succeeded.
  rewrite Hsid. cbn [truthy_str].
  destruct (String.eqb_spec sid ""); [contradiction|]. cbn [negb].
  rewrite Hs. cbv zeta.
  rewrite <- (update_first_found (has_stripe_id sid)
                (fun x =>
                commit x
                  (set_next_billing_date (set_status x "active")
                     (Some (if String.eqb (billing_cycle x) "monthly"
                            then plus_days now 30 else plus_days now 365)))
                  now)
             _ s Hs).
  cbn [billing_cycle set_status]. autorewrite with commit. reflexivity.
Qed.

(** X15.  A successful payment for a known provider subscription makes
    the first row with that provider id [active], whatever its status
    was, and sets its next billing date 30 days ahead for a monthly and
    365 days ahead for any other cycle.  It does not touch [end_date]
    or the usage counters, so the row is active afterwards exactly as
    far as its [end_date] allows, and it records one completed
    transaction for the row's user. *)
Theorem payment_succeeded_activates (st : Store) (invoice : StripeObject)
    (now : datetime) (sid : string) (s : UserSubscription) :
  obj_subscription invoice = Some sid -> sid <> "" ->
  find (has_stripe_id sid) (subscriptions (base st)) = Some s ->
  exists row tx,
    fst (_handle_payment_succeeded st invoice now)
    = Success "Payment processed"
    /\ In row (subscriptions
                 (base (snd (_handle_payment_succeeded st invoice now))))
    /\ map sub_id
         (subscriptions
            (base (snd (_handle_payment_succeeded st invoice now))))
       = map sub_id (subscriptions (base st))
    /\ sub_id row = sub_id s
    /\ status row = "active"
    /\ next_billing_date row
       = Some (plus_days now
                 (if String.eqb (billing_cycle s) "monthly"
                  then 30 else 365))
    /\ (forall t,
          is_active row t
          = match end_date s with
            | None => true
            | Some e => gtb e t
            end)
    /\ (forall f, counter_of row f = counter_of s f)
    /\ payment_transactions (snd (_handle_payment_succeeded st invoice now))
       = (payment_transactions st ++ [tx])%list
    /\ tx_status tx = "completed"
    /\ tx_user_id tx = user_id s
    /\ tx_subscription_id tx = Some (sub_id s).
Proof.
  intros Hsid Hne Hs.
  rewrite (_handle_payment_succeeded_known st invoice now sid s Hsid Hne Hs).
  cbn [fst snd base payment_transactions subscriptions with_subscriptions].
  eexists. eexists.
  split; [reflexivity|]. split; [apply update_first_in; exact Hs|].
  split; [apply update_first_map; intros x _; now rewrite commit_sub_id|].
  rewrite commit_sub_id, commit_status, commit_next_billing_date.
  split; [reflexivity|]. split; [reflexivity|].
  split.
  { cbn [next_billing_date set_next_billing_date set_status billing_cycle].
    now destruct (String.eqb (billing_cycle s) "monthly"). }
  split; [intros t; rewrite commit_is_active; unfold is_active; reflexivity|].
  split; [intros f; rewrite commit_counter_of; unfold counter_of; reflexivity|].
  repeat split.
Qed.

Lemma payment_succeeded_activates_witness :
  find (has_stripe_id "sub_1") (subscriptions db_paid) = Some sub_paid
  /\ exists row tx,
       fst (_handle_payment_succeeded
              {| base := db_paid; payment_transactions := [] |}
              {| obj_id := "in_1"; obj_subscription := Some "sub_1";
                 amount_paid := 999; amount_due := 999;
                 obj_currency := "usd" |} march_15)
       = Success "Payment processed"
       /\ status row = "active"
       /\ tx_status tx = "completed".
Proof.
  split; [reflexivity|].
  assert (Hne : "sub_1" <> "") by discriminate.
  destruct (payment_succeeded_activates
              {| base := db_paid; payment_transactions := [] |}
              {| obj_id := "in_1"; obj_subscription := Some "sub_1";
                 amount_paid := 999; amount_due := 999;
                 obj_currency := "usd" |} march_15 "sub_1" sub_paid
              eq_refl Hne eq_refl)
    as (row & tx & H1 & _ & _ & _ & H2 & _ & _ & _ & _ & H3 & _).
  exists row, tx. auto.
Defined.

(** X16.  A failed payment never changes a subscription, a user, a plan
    or a voucher: no row is suspended or cancelled.  It reports success
    and records at most one transaction, a [failed] one. *)
Theorem payment_failed_changes_no_subscription (st : Store)
    (invoice : StripeObject) :
  base (snd (_handle_payment_failed st invoice)) = base st
  /\ (exists m, fst (_handle_payment_failed st invoice) = Success m)
  /\ (payment_transactions (snd (_handle_payment_failed st invoice))
      = payment_transactions st
      \/ exists tx,
           payment_transactions (snd (_handle_payment_failed st invoice))
           = (payment_transactions st ++ [tx])%list
           /\ tx_status tx = "failed").
Proof.
  unfold _handle_payment_failed.
  destruct (negb (truthy_str (obj_subscription invoice)));
    [split; [reflexivity|]; split; [eexists; reflexivity | now left]|].
  destruct (obj_subscription invoice) as [sid|];
    [|split; [reflexivity|]; split; [eexists; reflexivity | now left]].
  destruct (find (has_stripe_id sid) (subscriptions (base st)));
    (split; [reflexivity|]); (split; [eexists; reflexivity|]);
    [right; eexists; split; reflexivity | now left].
Qed.

(** X17.  When the provider reports a subscription deleted, the first
    row with that provider id is marked [cancelled] and ends at the
    time of the event, so it is inactive at every instant; no
    transaction is recorded; an id no row carries changes nothing. *)
Theorem subscription_deleted_ends_access (st : Store)
    (subscription : StripeObject) (now : datetime) :
  fst (_handle_subscription_deleted st subscription now)
  = Success "Subscription cancelled"
  /\ payment_transactions (snd (_handle_subscription_deleted st subscription
                                  now))
     = payment_transactions st
  /\ (find (has_stripe_id (obj_id subscription)) (subscriptions (base st))
      = None ->
      snd (_handle_subscription_deleted st subscription now) = st)
  /\ (forall s,
        find (has_stripe_id (obj_id subscription)) (subscriptions (base st))
        = Some s ->
        exists row,
          In row (subscriptions
                    (base (snd (_handle_subscription_deleted st subscription
                                  now))))
          /\ sub_id row = sub_id s
          /\ status row = "cancelled"
          /\ end_date row = Some now
          /\ forall t, is_active row t = false).
Proof.
  unfold _handle_subscription_deleted.
  destruct (find (has_stripe_id (obj_id subscription))
              (subscriptions (base st))) as [s|] eqn:Hs.
  - split; [reflexivity|]. split; [reflexivity|].
    split; [discriminate|]. intros s0 [= <-].
    eexists. split.
    + cbn [snd base with_base subscriptions with_subscriptions].
      apply (update_first_in _ _ _ s Hs).
    + cbv beta. autorewrite with commit. do 3 (split; [reflexivity|]).
      intros t. now rewrite commit_is_active.
  - repeat split; try reflexivity. intros s0 H. discriminate.
Qed.

(** The row a successful purchase appends. *)
Lemma create_subscription_paid_shape (db db' : Database) (stripe : Stripe)
    (user : Z) (wanted cycle : string) (voucher_code : option string)
    (now : datetime) (p : SubscriptionPlan) (created : CreatedSubscription) :
  plan_by_id db wanted = Some p ->
  (price_monthly p =? 0)%float = false ->
  create_subscription db stripe user wanted cycle voucher_code now
  = (Success created, db') ->
  exists ss customer,
    subscription_create stripe = inl ss
    /\ subscription_id created = next_subscription_id db
    /\ subscriptions db'
       = (subscriptions db
          ++ [ {| sub_id := next_subscription_id db; user_id := user;
                  plan_id := wanted; plan := Some p; status := "pending";
                  billing_cycle := cycle; start_date := Some now;
                  end_date := None;
                  next_billing_date :=
                    Some (if String.eqb cycle "monthly"
                          then plus_days now 30 else plus_days now 365);
                  cancelled_at := None;
                  stripe_subscription_id := Some (stripe_id ss);
                  stripe_customer_id := customer;
                  interviews_used_this_month := 0; cvs_created := 0;
                  business_cards_created := 0;
                  usage_reset_date := Some now;
                  created_at := Some now; updated_at := Some now |} ])%list.
Proof.
  intros Hp Hprice. unfold create_subscription. rewrite Hp, Hprice.
  assert (Hp' : forall l, plan_by_id (with_users db l) wanted = Some p)
    by (intros l; exact Hp).
  innermost_cases; try discriminate; intros [= <- <-];
    do 2 eexists; (split; [reflexivity|]); (split; [reflexivity|]);
    cbn [subscriptions with_subscriptions with_users];
    unfold new_subscription; rewrite ?Hp, ?Hp'; reflexivity.
Qed.

(** X18.  From purchase to access.  A user without an active row buys a
    plan with a price: the row created is [pending] and the user still
    has no current subscription.  When the provider then reports the
    payment of that subscription (a provider id no earlier row carries),
    the row becomes the user's current subscription, on the plan
    bought, active at every instant, with the next billing date counted
    from the time of the payment. *)
Theorem purchase_then_payment (db db' : Database) (stripe : Stripe)
    (user : Z) (wanted cycle : string) (voucher_code : option string)
    (now paid_at : datetime) (p : SubscriptionPlan)
    (created : CreatedSubscription) (sid : string)
    (invoice : StripeObject) (history : list PaymentTransaction) :
  plan_by_id db wanted = Some p ->
  (price_monthly p =? 0)%float = false ->
  get_user_subscription db user = None ->
  create_subscription db stripe user wanted cycle voucher_code now
  = (Success created, db') ->
  created_stripe_subscription_id created = Some sid ->
  sid <> "" ->
  find (has_stripe_id sid) (subscriptions db) = None ->
  obj_subscription invoice = Some sid ->
  get_user_subscription db' user = None
  /\ exists row,
       get_user_subscription
         (base (snd (_handle_payment_succeeded
                       {| base := db'; payment_transactions := history |}
                       invoice paid_at))) user = Some row
       /\ sub_id row = subscription_id created
       /\ plan row = Some p
       /\ (forall t, is_active row t = true)
       /\ next_billing_date row
          = Some (plus_days paid_at
                    (if String.eqb cycle "monthly" then 30 else 365)).
Proof.
  intros Hp Hprice Hnone Hc Hsid Hne Hnew Hinv.
  destruct (create_subscription_paid_shape _ _ _ _ _ _ _ _ _ _ Hp Hprice Hc)
    as (ss & customer & Hss & Hid & Hsubs).
  assert (Hsid' : sid = stripe_id ss).
  { revert Hc Hsid. unfold create_subscription. rewrite Hp, Hprice, Hss.
    innermost_cases; try discriminate; intros [= <- <-]; cbn;
      now intros [= <-]. }
  subst sid.
  split.
  { unfold get_user_subscription. rewrite Hsubs, find_append.
    unfold get_user_subscription in Hnone. rewrite Hnone.
    cbn [find]. unfold active_of. cbn [status user_id].
    destruct (user =? user); reflexivity. }
  set (new := {| sub_id := next_subscription_id db; user_id := user;
                 plan_id := wanted; plan := Some p; status := "pending";
                 billing_cycle := cycle; start_date := Some now;
                 end_date := None;
                 next_billing_date :=
                   Some (if String.eqb cycle "monthly"
                         then plus_days now 30 else plus_days now 365);
                 cancelled_at := None;
                 stripe_subscription_id := Some (stripe_id ss);
                 stripe_customer_id := customer;
                 interviews_used_this_month := 0; cvs_created := 0;
                 business_cards_created := 0;
                 usage_reset_date := Some now;
                 created_at := Some now; updated_at := Some now |}) in *.
  assert (Hfind : find (has_stripe_id (stripe_id ss)) (subscriptions db')
                  = Some new).
  { rewrite Hsubs, find_append, Hnew. cbn. unfold has_stripe_id. cbn.
    now rewrite String.eqb_refl. }
  rewrite (_handle_payment_succeeded_known
             {| base := db'; payment_transactions := history |}
             invoice paid_at (stripe_id ss) new Hinv Hne Hfind).
  cbn [snd base subscriptions with_subscriptions].
  rewrite Hsubs.
  assert (Hupd : forall g,
            update_first (has_stripe_id (stripe_id ss)) g
              (subscriptions db ++ [new]) = (subscriptions db ++ [g new])%list).
  { intros g. clear Hsubs Hfind Hnone. revert Hnew.
    induction (subscriptions db) as [|x l IH]; cbn.
    - intros _. unfold has_stripe_id. cbn. now rewrite String.eqb_refl.
    - destruct (has_stripe_id (stripe_id ss) x); [discriminate|].
      intros H. now rewrite IH. }
  rewrite Hupd. eexists. split.
  { unfold get_user_subscription.
    cbn [subscriptions with_subscriptions]. rewrite find_append.
    unfold get_user_subscription in Hnone. rewrite Hnone.
    cbn [find]. rewrite commit_active_of. unfold active_of.
    cbn [user_id status set_status set_next_billing_date new].
    rewrite Z.eqb_refl. reflexivity. }
  autorewrite with commit.
  split; [symmetry; exact Hid|]. split; [reflexivity|].
  split; [intros t; rewrite commit_is_active; reflexivity|].
  cbn [next_billing_date set_next_billing_date set_status billing_cycle new].
  now destruct (String.eqb cycle "monthly").
Qed.

Lemma purchase_then_payment_witness :
  get_user_subscription db_new_user 7 = None
  /\ exists row,
       get_user_subscription
         (base (snd (_handle_payment_succeeded
                       {| base :=
                            snd (create_subscription db_new_user stripe_ok 7
                                   "basic" "monthly" None march_5);
                          payment_transactions := [] |}
                       {| obj_id := "in_1"; obj_subscription := Some "sub_1";
                          amount_paid := 999; amount_due := 999;
                          obj_currency := "usd" |} march_15))) 7 = Some row
       /\ plan row = Some basic_plan
       /\ forall t, is_active row t = true.
Proof.
  split; [reflexivity|].
  assert (Hne : "sub_1" <> "") by discriminate.
  destruct (purchase_then_payment db_new_user
              (snd (create_subscription db_new_user stripe_ok 7 "basic"
                      "monthly" None march_5))
              stripe_ok 7 "basic" "monthly" None march_5 march_15 basic_plan
              {| subscription_id := 1;
                 created_stripe_subscription_id := Some "sub_1";
                 created_client_secret := Some "secret";
                 created_payment_intent_id := Some "pi_1" |}
              "sub_1"
              {| obj_id := "in_1"; obj_subscription := Some "sub_1";
                 amount_paid := 999; amount_due := 999;
                 obj_currency := "usd" |} []
              eq_refl eq_refl eq_refl eq_refl eq_refl Hne eq_refl eq_refl)
    as (_ & row & H1 & _ & H2 & H3 & _).
  exists row. auto.
Defined.

Lemma update_first_map_found {A B : Type} (p : A -> bool) (key : A -> B)
    (l : list A) (s y : A) :
  find p l = Some s -> key y = key s ->
  map key (update_first p (fun _ => y) l) = map key l.
Proof.
  intros Hs Hk. induction l as [|x l IH]; cbn in *; [reflexivity|].
  destruct (p x); cbn.
  - injection Hs as ->. now rewrite Hk.
  - now rewrite IH.
Qed.

(** X19.  Whatever event arrives, [handle_stripe_webhook] leaves users,
    plans, vouchers and redemption records alone, adds or removes no
    subscription, and changes no subscription's key, user, plan or
    usage counter; it records at most one transaction and drops none;
    and when it reports a failure (a payload or signature it cannot
    accept) nothing at all has changed. *)
Theorem webhook_frame (st : Store) (verified : Verified) (now : datetime) :
  users (base (snd (handle_stripe_webhook st verified now)))
  = users (base st)
  /\ plans (base (snd (handle_stripe_webhook st verified now)))
     = plans (base st)
  /\ vouchers (base (snd (handle_stripe_webhook st verified now)))
     = vouchers (base st)
  /\ voucher_uses (base (snd (handle_stripe_webhook st verified now)))
     = voucher_uses (base st)
  /\ map (fun s => (sub_id s, user_id s, plan_id s,
                    (interviews_used_this_month s, cvs_created s,
                     business_cards_created s)))
       (subscriptions (base (snd (handle_stripe_webhook st verified now))))
     = map (fun s => (sub_id s, user_id s, plan_id s,
                      (interviews_used_this_month s, cvs_created s,
                       business_cards_created s)))
         (subscriptions (base st))
  /\ (exists added,
        payment_transactions (snd (handle_stripe_webhook st verified now))
        = (payment_transactions st ++ added)%list
        /\ (List.length added <= 1)%nat)
  /\ (forall e, fst (handle_stripe_webhook st verified now) = Failure e ->
                snd (handle_stripe_webhook st verified now) = st).
Proof.
  unfold handle_stripe_webhook, _handle_payment_succeeded,
    _handle_payment_failed, _handle_subscription_deleted.
  repeat match goal with |- _ /\ _ => split end;
    try (intros e);
    innermost_cases;
    cbn [fst snd base with_base payment_transactions users plans vouchers
         voucher_uses subscriptions with_subscriptions];
    try reflexivity; try discriminate;
    try (eapply update_first_map_found;
         [eassumption | cbv beta; now autorewrite with commit]);
    try (exists []; split; [now rewrite app_nil_r | cbn; lia]);
    try (eexists; split; [reflexivity | cbn; lia]).
Qed.

(** ** Creating vouchers *)

Lemma voucher_by_code_snoc (db : Database) (l : list DiscountVoucher)
    (v : DiscountVoucher) (c : string) :
  voucher_by_code (with_vouchers db (l ++ [v])) c
  = match find (fun x => String.eqb (code x) c) l with
    | Some x => Some x
    | None => if String.eqb (code v) c then Some v else None
    end.
Proof.
  unfold voucher_by_code. cbn [vouchers with_vouchers].
  now rewrite find_append.
Qed.

Lemma next_voucher_id_fresh (db : Database) :
  ~ In (next_voucher_id db) (map voucher_id (vouchers db)).
Proof.
  unfold next_voucher_id. intros H. apply max_id_bound in H. lia.
Qed.

(** X20.  [create_voucher] refuses a code that is already taken and
    then changes nothing.  Otherwise it stores one new voucher, under a
    key no voucher had: unused, active, valid from the time of the call,
    single use per user; the code now finds that voucher, every
    other code finds what it found before, and no other table is
    touched. *)
Theorem create_voucher_lookup (db : Database) (new_code kind : string)
    (value : float) (until : datetime) (uses_allowed : Z)
    (for_plans : option (list string)) (now : datetime) :
  (forall existing, voucher_by_code db new_code = Some existing ->
     create_voucher db new_code kind value until uses_allowed for_plans now
     = (Failure "Voucher code already exists", db))
  /\ (voucher_by_code db new_code = None ->
      exists v,
        fst (create_voucher db new_code kind value until uses_allowed
               for_plans now) = Success (voucher_id v)
        /\ voucher_by_code
             (snd (create_voucher db new_code kind value until uses_allowed
                     for_plans now)) new_code = Some v
        /\ ~ In (voucher_id v) (map voucher_id (vouchers db))
        /\ code v = new_code
        /\ used_count v = 0
        /\ max_uses v = uses_allowed
        /\ active_flag v = true
        /\ single_use_per_user v = true
        /\ valid_from v = Some now
        /\ valid_until v = Some until
        /\ (forall c, c <> new_code ->
              voucher_by_code
                (snd (create_voucher db new_code kind value until
                        uses_allowed for_plans now)) c
              = voucher_by_code db c))
  /\ users (snd (create_voucher db new_code kind value until uses_allowed
                   for_plans now)) = users db
  /\ plans (snd (create_voucher db new_code kind value until uses_allowed
                   for_plans now)) = plans db
  /\ subscriptions (snd (create_voucher db new_code kind value until
                           uses_allowed for_plans now)) = subscriptions db
  /\ voucher_uses (snd (create_voucher db new_code kind value until
                          uses_allowed for_plans now)) = voucher_uses db.
Proof.
  unfold create_voucher.
  destruct (voucher_by_code db new_code) as [x|] eqn:Hx.
  - split; [reflexivity|]. split; [discriminate|]. repeat split.
  - split; [discriminate|]. split; [|repeat split].
    intros _. eexists. split; [reflexivity|]. cbn [snd].
    split.
    { rewrite voucher_by_code_snoc. unfold voucher_by_code in Hx.
      rewrite Hx. cbn [code]. now rewrite String.eqb_refl. }
    split; [exact (next_voucher_id_fresh db)|].
    repeat (split; [reflexivity|]).
    intros c Hc. rewrite voucher_by_code_snoc. unfold voucher_by_code.
    destruct (find _ (vouchers db)); [reflexivity|]. cbn [code].
    destruct (String.eqb_spec new_code c); [congruence|reflexivity].
Qed.

Lemma find_none_not_in (vs : list DiscountVoucher) (c : string) :
  find (fun x => String.eqb (code x) c) vs = None ->
  ~ In c (map code vs).
Proof.
  induction vs as [|x l IH]; cbn; [tauto|].
  destruct (String.eqb_spec (code x) c); [discriminate|].
  intros H [E|E]; [contradiction | now apply IH].
Qed.

(** X21.  Voucher codes stay unique: when no two vouchers share a code,
    none do after [create_voucher], whether it stores the voucher or
    refuses it. *)
Theorem create_voucher_codes_unique (db : Database) (new_code kind : string)
    (value : float) (until : datetime) (uses_allowed : Z)
    (for_plans : option (list string)) (now : datetime) :
  NoDup (map code (vouchers db)) ->
  NoDup (map code
           (vouchers (snd (create_voucher db new_code kind value until
                             uses_allowed for_plans now)))).
Proof.
  intros H. unfold create_voucher.
  destruct (voucher_by_code db new_code) eqn:Hx; [exact H|].
  cbn [snd vouchers with_vouchers]. rewrite map_app. cbn [map code].
  apply NoDup_snoc; [exact H|]. now apply find_none_not_in.
Qed.

Lemma create_voucher_codes_unique_witness :
  NoDup (map code (vouchers db_new_user))
  /\ NoDup (map code
              (vouchers
                 (snd (create_voucher db_new_user "SPRING" "percentage"
                         10%float march_15 5 None march_5))))
  /\ NoDup (map code
              (vouchers
                 (snd (create_voucher db_new_user "SUMMER" "percentage"
                         10%float march_15 5 None march_5)))).
Proof.
  assert (H : NoDup (map code (vouchers db_new_user)))
    by (repeat constructor; intros []).
  split; [exact H|]. split.
  - exact (create_voucher_codes_unique db_new_user "SPRING" "percentage"
             10%float march_15 5 None march_5 H).
  - exact (create_voucher_codes_unique db_new_user "SUMMER" "percentage"
             10%float march_15 5 None march_5 H).
Defined.

Lemma existing_use_none (uses : list VoucherUse) (vid user : Z) :
  (forall r, In r uses -> use_voucher_id r <> vid) ->
  existing_use uses vid user = None.
Proof.
  unfold existing_use. induction uses as [|r l IH]; cbn; [reflexivity|].
  intros H. destruct (Z.eqb_spec (use_voucher_id r) vid) as [E|_].
  - exfalso. apply (H r); auto.
  - cbn. apply IH. intros r' Hr'. apply H. now right.
Qed.

(** X22.  A voucher just created validates: from the instant of its
    creation up to and including its [valid_until], provided it allows
    at least one use, no redemption record already points at its key,
    and the plan asked for, if one is given and the voucher is
    restricted to plans, is among them. *)
Theorem created_voucher_validates (db : Database) (new_code kind : string)
    (value : float) (until : datetime) (uses_allowed : Z)
    (for_plans : option (list string)) (now later : datetime)
    (user : option Z) (wanted : option string) :
  voucher_by_code db new_code = None ->
  0 < uses_allowed ->
  leb now later = true ->
  leb later until = true ->
  (forall r, In r (voucher_uses db) ->
             use_voucher_id r <> next_voucher_id db) ->
  (forall p l, wanted = Some p -> for_plans = Some l ->
               p = "" \/ l = [] \/ str_in p l = true) ->
  exists v,
    validate_voucher
      (snd (create_voucher db new_code kind value until uses_allowed
              for_plans now)) new_code user wanted later = Success v
    /\ fst (create_voucher db new_code kind value until uses_allowed
              for_plans now) = Success (voucher_id v).
Proof.
  intros Hx Hmax Hafter Hbefore Huses Hplan.
  unfold create_voucher. rewrite Hx. cbn [fst snd].
  eexists. split; [|reflexivity].
  unfold validate_voucher. rewrite voucher_by_code_snoc.
  unfold voucher_by_code in Hx. rewrite Hx. cbn [code].
  rewrite String.eqb_refl.
  unfold is_valid.
  cbn [active_flag valid_from valid_until used_count max_uses
       applicable_plans single_use_per_user voucher_id voucher_uses
       with_vouchers negb].
  rewrite DateTimeFacts.gtb_leb, Hafter, DateTimeFacts.ltb_leb, Hbefore.
  cbn [negb]. rewrite Z.geb_leb.
  destruct (Z.leb_spec uses_allowed 0); [lia|].
  assert (Hp : match wanted with
               | Some p =>
                 match match for_plans with
                       | Some ((_ :: _) as l) => Some l
                       | _ => None
                       end with
                 | Some ((_ :: _) as plans) =>
                     negb (String.eqb p "") && negb (str_in p plans)
                 | _ => false
                 end
               | None => false
               end = false).
  { destruct wanted as [p|]; [|reflexivity].
    destruct for_plans as [[|x l]|]; try reflexivity.
    destruct (Hplan p (x :: l) eq_refl eq_refl) as [->|[E|E]];
      [reflexivity | discriminate | rewrite E; apply andb_false_r]. }
  assert (Hu : match user with
               | Some uid =>
                 negb (uid =? 0) && true
                 && match existing_use (voucher_uses db)
                          (next_voucher_id db) uid with
                    | Some _ => true
                    | None => false
                    end
               | None => false
               end = false).
  { destruct user as [uid|]; [|reflexivity].
    rewrite (existing_use_none _ _ uid Huses). apply andb_false_r. }
  rewrite Hp, Hu. reflexivity.
Qed.

Lemma created_voucher_validates_witness :
  voucher_by_code db_new_user "SUMMER" = None
  /\ exists v,
       validate_voucher
         (snd (create_voucher db_new_user "SUMMER" "percentage" 10%float
                 march_15 5 (Some ["basic"]) march_5))
         "SUMMER" (Some 7) (Some "basic") march_15 = Success v.
Proof.
  split; [reflexivity|].
  destruct (created_voucher_validates db_new_user "SUMMER" "percentage"
              10%float march_15 5 (Some ["basic"]) march_5 march_15
              (Some 7) (Some "basic") eq_refl eq_refl eq_refl eq_refl)
    as (v & H & _).
  - intros r [].
  - intros p l [= <-] [= <-]. right. right. reflexivity.
  - now exists v.
Defined.

(** ** Vouchers across purchases *)

Lemma create_subscription_keeps_vouchers (db : Database) (stripe : Stripe)
    (user : Z) (wanted cycle : string) (voucher_code : option string)
    (now : datetime) :
  vouchers (snd (create_subscription db stripe user wanted cycle
                   voucher_code now)) = vouchers db
  /\ voucher_uses (snd (create_subscription db stripe user wanted cycle
                          voucher_code now)) = voucher_uses db.
Proof.
  unfold create_subscription, _create_free_subscription.
  split; innermost_cases; reflexivity.
Qed.

Lemma voucher_outcomes_depend_on_two_tables (db1 db2 : Database) :
  vouchers db1 = vouchers db2 -> voucher_uses db1 = voucher_uses db2 ->
  (forall c u p t,
     validate_voucher db1 c u p t = validate_voucher db2 c u p t)
  /\ (forall stripe c u p t,
        _apply_voucher db1 stripe c u p t = _apply_voucher db2 stripe c u p t).
Proof.
  intros Hv Hu.
  split; intros; unfold validate_voucher, _apply_voucher, voucher_by_code;
    now rewrite Hv, Hu.
Qed.

(** X24.  A purchase uses up no voucher: after [create_subscription],
    with whatever voucher and whether it succeeded, every validation and
    every application of every voucher gives exactly what it gave
    before.  A voucher limited to one use per user that was accepted
    for a purchase is therefore accepted again for the same user. *)
Theorem purchase_consumes_no_voucher (db : Database) (stripe : Stripe)
    (user : Z) (wanted cycle : string) (voucher_code : option string)
    (now : datetime) :
  (forall c u p t,
     validate_voucher
       (snd (create_subscription db stripe user wanted cycle voucher_code
               now)) c u p t
     = validate_voucher db c u p t)
  /\ (forall provider c u p t,
        _apply_voucher
          (snd (create_subscription db stripe user wanted cycle voucher_code
                  now)) provider c u p t
        = _apply_voucher db provider c u p t).
Proof.
  destruct (create_subscription_keeps_vouchers db stripe user wanted cycle
              voucher_code now) as [Hv Hu].
  now apply voucher_outcomes_depend_on_two_tables.
Qed.

(** ** The default plans *)

Lemma plan_by_id_add (db : Database) (d : SubscriptionPlan) (k : string) :
  plan_by_id (add_plan_if_missing db d) k
  = match plan_by_id db k with
    | Some p => Some p
    | None => if String.eqb (plan_key d) k then Some d else None
    end.
Proof.
  unfold add_plan_if_missing.
  destruct (plan_by_id db (plan_key d)) as [q|] eqn:Hq.
  - destruct (plan_by_id db k) eqn:Hk; [reflexivity|].
    destruct (String.eqb_spec (plan_key d) k); [congruence|reflexivity].
  - unfold plan_by_id. cbn [plans with_plans]. now rewrite find_append.
Qed.

Lemma seed_present (l : list SubscriptionPlan) (db : Database) (k : string) :
  plan_by_id (fold_left add_plan_if_missing l db) k
  = match plan_by_id db k with
    | Some p => Some p
    | None => find (fun d => String.eqb (plan_key d) k) l
    end.
Proof.
  revert db. induction l as [|d l IH]; intros db; cbn [fold_left find].
  - now destruct (plan_by_id db k).
  - rewrite IH, plan_by_id_add.
    destruct (plan_by_id db k); [reflexivity|].
    destruct (String.eqb (plan_key d) k); reflexivity.
Qed.

Lemma seed_nothing_missing (l : list SubscriptionPlan) (db : Database) :
  (forall d, In d l -> plan_by_id db (plan_key d) <> None) ->
  fold_left add_plan_if_missing l db = db.
Proof.
  revert db. induction l as [|d l IH]; intros db H; cbn [fold_left];
    [reflexivity|].
  assert (E : add_plan_if_missing db d = db).
  { unfold add_plan_if_missing.
    destruct (plan_by_id db (plan_key d)) eqn:Hd; [reflexivity|].
    exfalso. apply (H d); [now left | exact Hd]. }
  rewrite E. apply IH. intros d' Hd'. apply H. now right.
Qed.

Lemma seed_other_tables (l : list SubscriptionPlan) (db : Database) :
  users (fold_left add_plan_if_missing l db) = users db
  /\ subscriptions (fold_left add_plan_if_missing l db) = subscriptions db
  /\ vouchers (fold_left add_plan_if_missing l db) = vouchers db
  /\ voucher_uses (fold_left add_plan_if_missing l db) = voucher_uses db.
Proof.
  revert db. induction l as [|d l IH]; intros db; cbn [fold_left];
    [repeat split|].
  destruct (IH (add_plan_if_missing db d)) as (-> & -> & -> & ->).
  unfold add_plan_if_missing.
  now destruct (plan_by_id db (plan_key d)).
Qed.

(** X23.  Seeding the default plans is safe to repeat.  A plan id
    already in the catalogue keeps the plan it had, whatever the
    defaults say; the ids [free], [basic], [premium] and [enterprise]
    that were missing get their default plan; seeding a second time
    changes nothing; and no other table is touched. *)
Theorem create_subscription_plans_idempotent (db : Database) :
  create_subscription_plans (create_subscription_plans db)
  = create_subscription_plans db
  /\ (forall k p, plan_by_id db k = Some p ->
                  plan_by_id (create_subscription_plans db) k = Some p)
  /\ (forall d, In d plans_data ->
                plan_by_id db (plan_key d) = None ->
                plan_by_id (create_subscription_plans db) (plan_key d)
                = Some d)
  /\ (forall k, plan_by_id db k = None ->
                ~ In k (map plan_key plans_data) ->
                plan_by_id (create_subscription_plans db) k = None)
  /\ users (create_subscription_plans db) = users db
  /\ subscriptions (create_subscription_plans db) = subscriptions db
  /\ vouchers (create_subscription_plans db) = vouchers db
  /\ voucher_uses (create_subscription_plans db) = voucher_uses db.
Proof.
  unfold create_subscription_plans.
  split; [|split; [|split; [|split]]].
  - apply seed_nothing_missing. intros d Hd. rewrite seed_present.
    destruct (plan_by_id db (plan_key d)); [discriminate|].
    cbn in Hd. destruct Hd as [<-|[<-|[<-|[<-|[]]]]]; discriminate.
  - intros k p H. now rewrite seed_present, H.
  - intros d Hd H. rewrite seed_present, H.
    cbn in Hd. destruct Hd as [<-|[<-|[<-|[<-|[]]]]]; reflexivity.
  - intros k H Hk. rewrite seed_present, H. unfold plans_data in *.
    cbn [find plan_key default_plan map In] in *.
    repeat match goal with
           | |- context [String.eqb ?a k] =>
               destruct (String.eqb_spec a k); [exfalso; tauto|]
           end.
    reflexivity.
  - apply seed_other_tables.
Qed.

(** ** The [/subscribe] handler *)

